(** * herbIntel: the herb / phytochemical lookup and search API (src/main.py)

    A shallow embedding of the three request handlers of [main.py] and of
    the two join helpers they share, over an explicit snapshot of the data
    store.  The store's ILIKE operator and the external reranking client
    are the two capabilities the module reaches through its global clients
    ([supabase], [co]); they are section variables below.  The store only
    answers reads: all the queries of one request see the same tables, and
    a query returns its rows in table order. *)

From Stdlib Require Import PrimFloat Ascii.
From stdpp Require Import gmap strings list fin_maps.

Open Scope string_scope.
Open Scope list_scope.
Open Scope Z_scope.

(* A decimal float literal such as 0.2 denotes the nearest binary64 value,
   as it does in Python. *)
Set Warnings "-inexact-float".

(** ** Rows of the three collections *)

Module Herb.
Record t := mk {
  herb_id : Z;
  herb_name : string;
  scientific_name : string;
  uses : string;
  origin : string;
  source_url : string
}.
End Herb.

Module Compound.
Record t := mk {
  compound_id : Z;
  compound_name : string;
  function : string;
  chemical_structure : string;
  compound_type : string;
  source_url : string
}.
End Compound.

Module Link.
Record t := mk {
  herb_id : Z;
  compound_id : Z
}.
End Link.

(** A snapshot of the data store: the tables [herbs], [phytochemicals] and
    [herb_phytochemical], each in the order the store returns its rows. *)
Module Store.
Record t := mk {
  herbs : list Herb.t;
  phytochemicals : list Compound.t;
  herb_phytochemical : list Link.t
}.
End Store.

(** ** Response bodies *)

(** An element of a herb record's ["phytochemicals"] list. *)
Module EmbeddedCompound.
Record t := mk {
  compound_name : string;
  function : string;
  compound_type : string;
  source_url : string
}.
End EmbeddedCompound.

(** An element of the body of [GET /herbs/{herb_name}]. *)
Module HerbRecord.
Record t := mk {
  herb_name : string;
  scientific_name : string;
  uses : string;
  origin : string;
  source_url : string;
  phytochemicals : list EmbeddedCompound.t
}.
End HerbRecord.

(** An element of a compound record's ["related_herbs"] list. *)
Module EmbeddedHerb.
Record t := mk {
  herb_name : string;
  scientific_name : string;
  uses : string;
  source_url : string
}.
End EmbeddedHerb.

(** An element of the body of [GET /phytochemicals/{compound_name}]. *)
Module CompoundRecord.
Record t := mk {
  compound_name : string;
  function : string;
  chemical_structure : string;
  compound_type : string;
  source_url : string;
  related_herbs : list EmbeddedHerb.t
}.
End CompoundRecord.

(** The four-key dict of [search]: an element of [meta] and of the body. *)
Module Hit.
Record t := mk {
  type : string;
  name : string;
  info : string;
  source_url : string
}.
End Hit.

(** ** What a handler produces *)

Inductive PyError :=
| IndexError.

(** A handler returns a body (status 200), raises [HTTPException], or lets
    another exception escape (the framework answers 500). *)
Inductive Response (A : Type) :=
| Return (body : A)
| HTTPException (status_code : Z) (detail : string)
| Unhandled (e : PyError).
Arguments Return {A} body.
Arguments HTTPException {A} status_code detail.
Arguments Unhandled {A} e.

Definition status {A} (r : Response A) : Z :=
  match r with
  | Return _ => 200
  | HTTPException code _ => code
  | Unhandled _ => 500
  end.

(** Sequencing: an exception raised by [r] skips the continuation. *)
Definition and_then {A B} (r : Response A) (k : A → Response B) : Response B :=
  match r with
  | Return a => k a
  | HTTPException code detail => HTTPException code detail
  | Unhandled e => Unhandled e
  end.

(** ** The rerank client's answer *)

Record RerankResult := mkRerankResult {
  index : Z;
  relevance_score : float
}.

(** [co.rerank] either returns [rerank.results] or raises [e]; [message] is
    [str(e)]. *)
Inductive RerankOutcome :=
| Reranked (results : list RerankResult)
| Raised (message : string).

(** [result.relevance_score > 0.2] on binary64 floats. *)
#[warnings="-inexact-float"]
Definition above_threshold (result : RerankResult) : bool :=
  PrimFloat.ltb 0.2%float (relevance_score result).

(** ** Python primitives used by the handlers *)

(** [next((x for x in l if P x), None)] *)
Fixpoint next_where {A} (P : A → bool) (l : list A) : option A :=
  match l with
  | [] => None
  | x :: l' => if P x then Some x else next_where P l'
  end.

(** [m.setdefault(k, []).append(v)] *)
Definition setdefault_append {V} (m : gmap Z (list V)) (k : Z) (v : V)
  : gmap Z (list V) :=
  <[k := default [] (m !! k) ++ [v]]> m.

(** [m.get(k, [])] *)
Definition get_or_empty {V} (m : gmap Z (list V)) (k : Z) : list V :=
  default [] (m !! k).

(** [l[i]]: a negative index counts from the end; [None] is [IndexError]. *)
Definition getitem {A} (l : list A) (i : Z) : option A :=
  if decide (0 ≤ i) then l !! Z.to_nat i
  else if decide (- Z.of_nat (length l) ≤ i) then l !! Z.to_nat (Z.of_nat (length l) + i)
  else None.

(** ** Data access: the queries issued through the store client *)

(** [table.select("*").in_(column, values)] *)
Definition select_in {R} (column : R → Z) (values : list Z) (table : list R)
  : list R :=
  filter (λ row, column row ∈ values) table.

Section Handlers.

(** [ilike pattern value]: the store's ILIKE operator. *)
Variable ilike : string → string → bool.

(** [co.rerank(query, documents, top_n, model)] *)
Variable co_rerank : string → list string → Z → string → RerankOutcome.

(** [table.select("*").ilike(column, pattern)] *)
Definition select_ilike {R} (column : R → string) (pattern : string)
    (table : list R) : list R :=
  filter (λ row, ilike pattern (column row) = true) table.

(** ** Join helpers *)

Definition get_related_compounds (db : Store.t) (herb_ids : list Z)
  : list Compound.t :=
  let hp_response := select_in Link.herb_id herb_ids (Store.herb_phytochemical db) in
  match hp_response with
  | [] => []
  | _ :: _ =>
      let compound_ids := Link.compound_id <$> hp_response in
      select_in Compound.compound_id compound_ids (Store.phytochemicals db)
  end.

Definition get_related_herbs (db : Store.t) (compound_ids : list Z)
  : list Herb.t :=
  let hp_response := select_in Link.compound_id compound_ids (Store.herb_phytochemical db) in
  match hp_response with
  | [] => []
  | _ :: _ =>
      let herb_ids := Link.herb_id <$> hp_response in
      select_in Herb.herb_id herb_ids (Store.herbs db)
  end.

(** ** GET /herbs/{herb_name} *)

Definition embed_compound (compound : Compound.t) : EmbeddedCompound.t :=
  EmbeddedCompound.mk (Compound.compound_name compound) (Compound.function compound)
    (Compound.compound_type compound) (Compound.source_url compound).

(** One iteration of the loop of lines 58-66. *)
Definition compound_map_step (compounds : list Compound.t)
    (compound_map : gmap Z (list EmbeddedCompound.t)) (hp : Link.t)
  : gmap Z (list EmbeddedCompound.t) :=
  match next_where (λ c, bool_decide (Compound.compound_id c = Link.compound_id hp)) compounds with
  | Some compound =>
      setdefault_append compound_map (Link.herb_id hp) (embed_compound compound)
  | None => compound_map
  end.

Definition build_compound_map (compounds : list Compound.t) (links : list Link.t)
  : gmap Z (list EmbeddedCompound.t) :=
  foldl (compound_map_step compounds) ∅ links.

Definition herb_record (compound_map : gmap Z (list EmbeddedCompound.t))
    (h : Herb.t) : HerbRecord.t :=
  HerbRecord.mk (Herb.herb_name h) (Herb.scientific_name h) (Herb.uses h)
    (Herb.origin h) (Herb.source_url h)
    (get_or_empty compound_map (Herb.herb_id h)).

Definition get_herb (db : Store.t) (herb_name : string)
  : Response (list HerbRecord.t) :=
  let herb_response :=
    select_ilike Herb.herb_name ("%" +:+ herb_name +:+ "%") (Store.herbs db) in
  match herb_response with
  | [] => HTTPException 404 "Herb not found"
  | _ :: _ =>
      let herbs := herb_response in
      let herb_ids := Herb.herb_id <$> herbs in
      let compounds := get_related_compounds db herb_ids in
      let compound_map :=
        build_compound_map compounds
          (select_in Link.herb_id herb_ids (Store.herb_phytochemical db)) in
      Return (herb_record compound_map <$> herbs)
  end.

(** ** GET /phytochemicals/{compound_name} *)

Definition embed_herb (herb : Herb.t) : EmbeddedHerb.t :=
  EmbeddedHerb.mk (Herb.herb_name herb) (Herb.scientific_name herb)
    (Herb.uses herb) (Herb.source_url herb).

(** One iteration of the loop of lines 90-98. *)
Definition herb_map_step (herbs : list Herb.t)
    (herb_map : gmap Z (list EmbeddedHerb.t)) (hp : Link.t)
  : gmap Z (list EmbeddedHerb.t) :=
  match next_where (λ h, bool_decide (Herb.herb_id h = Link.herb_id hp)) herbs with
  | Some herb =>
      setdefault_append herb_map (Link.compound_id hp) (embed_herb herb)
  | None => herb_map
  end.

Definition build_herb_map (herbs : list Herb.t) (links : list Link.t)
  : gmap Z (list EmbeddedHerb.t) :=
  foldl (herb_map_step herbs) ∅ links.

Definition compound_record (herb_map : gmap Z (list EmbeddedHerb.t))
    (c : Compound.t) : CompoundRecord.t :=
  CompoundRecord.mk (Compound.compound_name c) (Compound.function c)
    (Compound.chemical_structure c) (Compound.compound_type c)
    (Compound.source_url c)
    (get_or_empty herb_map (Compound.compound_id c)).

Definition get_phytochemical (db : Store.t) (compound_name : string)
  : Response (list CompoundRecord.t) :=
  let compound_response :=
    select_ilike Compound.compound_name ("%" +:+ compound_name +:+ "%")
      (Store.phytochemicals db) in
  match compound_response with
  | [] => HTTPException 404 "Compound not found"
  | _ :: _ =>
      let compounds := compound_response in
      let compound_ids := Compound.compound_id <$> compounds in
      let herbs := get_related_herbs db compound_ids in
      let herb_map :=
        build_herb_map herbs
          (select_in Link.compound_id compound_ids (Store.herb_phytochemical db)) in
      Return (compound_record herb_map <$> compounds)
  end.

(** ** GET /search *)

Definition herb_text (h : Herb.t) : string :=
  "Herb: " +:+ Herb.herb_name h +:+ ". Uses: " +:+ Herb.uses h
    +:+ ". Origin: " +:+ Herb.origin h.

Definition herb_meta (h : Herb.t) : Hit.t :=
  Hit.mk "herb" (Herb.herb_name h) (Herb.uses h) (Herb.source_url h).

Definition compound_text (c : Compound.t) : string :=
  "Compound: " +:+ Compound.compound_name c +:+ ". Function: " +:+ Compound.function c
    +:+ ". Type: " +:+ Compound.compound_type c.

Definition compound_meta (c : Compound.t) : Hit.t :=
  Hit.mk "compound" (Compound.compound_name c) (Compound.function c)
    (Compound.source_url c).

(** The two loops of lines 116-137, on the pair [(documents, meta)]. *)
Definition prepare_documents (herbs : list Herb.t) (compounds : list Compound.t)
  : list string * list Hit.t :=
  let after_herbs :=
    foldl (λ '(documents, meta) h,
             (documents ++ [herb_text h], meta ++ [herb_meta h]))
          ([], []) herbs in
  foldl (λ '(documents, meta) c,
           (documents ++ [compound_text c], meta ++ [compound_meta c]))
        after_herbs compounds.

(** The loop of lines 151-160, started from the current [results]. *)
Fixpoint compile_results (meta : list Hit.t) (rerank_results : list RerankResult)
    (results : list Hit.t) : Response (list Hit.t) :=
  match rerank_results with
  | [] => Return results
  | result :: rest =>
      if above_threshold result then
        match getitem meta (index result) with
        | Some data =>
            compile_results meta rest
              (results ++ [Hit.mk (Hit.type data) (Hit.name data) (Hit.info data)
                             (Hit.source_url data)])
        | None => Unhandled IndexError
        end
      else compile_results meta rest results
  end.

Definition search (db : Store.t) (q : string) : Response (list Hit.t) :=
  let herbs := Store.herbs db in
  let compounds := Store.phytochemicals db in
  let '(documents, meta) := prepare_documents herbs compounds in
  match co_rerank q documents 5 "rerank-english-v2.0" with
  | Raised message => HTTPException 500 ("Cohere error: " +:+ message)
  | Reranked rerank_results =>
      and_then (compile_results meta rerank_results [])
        (λ results, Return (take 5 results))
  end.

End Handlers.

(** ** Vocabulary of the properties *)

(** Every link row names a herb of [herbs] and a compound of
    [phytochemicals]. *)
Definition referential_integrity (db : Store.t) : Prop :=
  Forall (λ hp,
            Link.herb_id hp ∈ (Herb.herb_id <$> Store.herbs db)
            ∧ Link.compound_id hp ∈ (Compound.compound_id <$> Store.phytochemicals db))
         (Store.herb_phytochemical db).

(** The link rows of one herb, and of one compound, in store order. *)
Definition links_of_herb (db : Store.t) (id : Z) : list Link.t :=
  filter (λ hp, Link.herb_id hp = id) (Store.herb_phytochemical db).

Definition links_of_compound (db : Store.t) (id : Z) : list Link.t :=
  filter (λ hp, Link.compound_id hp = id) (Store.herb_phytochemical db).

(** The first row of a table with a given identifier. *)
Definition compound_by_id (db : Store.t) (id : Z) : option Compound.t :=
  next_where (λ c, bool_decide (Compound.compound_id c = id)) (Store.phytochemicals db).

Definition herb_by_id (db : Store.t) (id : Z) : option Herb.t :=
  next_where (λ h, bool_decide (Herb.herb_id h = id)) (Store.herbs db).

(** The common shape of the two assembly loops: a link row for which
    [found] gives an entity appends its embedding under [key]; any other
    row leaves the dict as it is. *)
Definition group_step {X V} (key : Link.t → Z) (found : Link.t → option X)
    (embed : X → V) (m : gmap Z (list V)) (hp : Link.t) : gmap Z (list V) :=
  match found hp with
  | Some x => setdefault_append m (key hp) (embed x)
  | None => m
  end.

(** The rows a search ranks: every herb, then every compound. *)
Inductive Entity :=
| OfHerb (h : Herb.t)
| OfCompound (c : Compound.t).

Definition entities (db : Store.t) : list Entity :=
  (OfHerb <$> Store.herbs db) ++ (OfCompound <$> Store.phytochemicals db).

Definition entity_text (e : Entity) : string :=
  match e with
  | OfHerb h => herb_text h
  | OfCompound c => compound_text c
  end.

Definition entity_meta (e : Entity) : Hit.t :=
  match e with
  | OfHerb h => herb_meta h
  | OfCompound c => compound_meta c
  end.

(** The two lists a search works with: the texts submitted to the ranker
    and the metadata records kept beside them. *)
Definition documents_of (db : Store.t) : list string :=
  (prepare_documents (Store.herbs db) (Store.phytochemicals db)).1.

Definition meta_of (db : Store.t) : list Hit.t :=
  (prepare_documents (Store.herbs db) (Store.phytochemicals db)).2.

(** The ranker's contract: an index is a position of the submitted list. *)
Definition well_indexed (documents : list string) (results : list RerankResult)
  : Prop :=
  Forall (λ result, 0 ≤ index result < Z.of_nat (length documents)) results.

(** The results that pass the relevance threshold, in the ranker's order. *)
Definition qualifying (results : list RerankResult) : list RerankResult :=
  filter (λ result, above_threshold result = true) results.

(** ** A concrete store, matcher and ranker for the worked examples *)

Module Demo.

Definition lower (c : ascii) : ascii :=
  let n := Ascii.N_of_ascii c in
  if ((65 <=? n) && (n <=? 90))%N then Ascii.ascii_of_N (n + 32) else c.

(** LIKE patterns: [%] stands for any run of characters, [_] for any one. *)
Fixpoint like (pattern value : list ascii) : bool :=
  match pattern with
  | [] => match value with [] => true | _ :: _ => false end
  | p :: pattern' =>
      if Ascii.eqb p "%"%char then
        (fix any (v : list ascii) : bool :=
           like pattern' v || match v with [] => false | _ :: v' => any v' end) value
      else
        match value with
        | [] => false
        | c :: value' => (Ascii.eqb p "_"%char || Ascii.eqb p c) && like pattern' value'
        end
  end.

Definition ilike (pattern value : string) : bool :=
  like (lower <$> String.list_ascii_of_string pattern)
       (lower <$> String.list_ascii_of_string value).

Definition turmeric : Herb.t :=
  Herb.mk 1 "Turmeric" "Curcuma longa" "anti-inflammatory" "India" "https://example.org/turmeric".
Definition ginger : Herb.t :=
  Herb.mk 2 "Ginger" "Zingiber officinale" "nausea" "China" "https://example.org/ginger".
Definition tulsi : Herb.t :=
  Herb.mk 3 "Tulsi" "Ocimum tenuiflorum" "stress" "India" "https://example.org/tulsi".

Definition curcumin : Compound.t :=
  Compound.mk 1 "Curcumin" "anti-inflammatory" "C21H20O6" "polyphenol" "https://example.org/curcumin".
Definition gingerol : Compound.t :=
  Compound.mk 2 "Gingerol" "antiemetic" "C17H26O4" "phenol" "https://example.org/gingerol".
Definition eugenol : Compound.t :=
  Compound.mk 3 "Eugenol" "analgesic" "C10H12O2" "phenylpropanoid" "https://example.org/eugenol".

Definition db : Store.t :=
  Store.mk [turmeric; ginger; tulsi] [curcumin; gingerol; eugenol]
    [Link.mk 1 1; Link.mk 2 2; Link.mk 2 1; Link.mk 3 3; Link.mk 2 3].

(** A store whose link table has a row pointing at no compound. *)
Definition db_dangling : Store.t :=
  Store.mk [turmeric; ginger] [curcumin]
    [Link.mk 1 1; Link.mk 2 2; Link.mk 2 1].

Definition empty_db : Store.t := Store.mk [] [] [].

(** A ranker that scores the first three documents, best first. *)
Definition rerank (query : string) (documents : list string) (top_n : Z)
    (model : string) : RerankOutcome :=
  Reranked [mkRerankResult 1 0.875%float; mkRerankResult 0 0.5%float;
            mkRerankResult 2 0.125%float].

(** A ranker whose call fails. *)
Definition rerank_down (query : string) (documents : list string) (top_n : Z)
    (model : string) : RerankOutcome :=
  Raised "status_code: 429, body: rate limit".

(** A ranker that finds nothing relevant. *)
Definition rerank_nothing (query : string) (documents : list string) (top_n : Z)
    (model : string) : RerankOutcome :=
  Reranked [].

End Demo.

(** The first example of the spec: the lookup of turmeric. *)
Example get_herb_turmeric :
  get_herb Demo.ilike Demo.db "turmeric" =
  Return [HerbRecord.mk "Turmeric" "Curcuma longa" "anti-inflammatory" "India"
            "https://example.org/turmeric"
            [EmbeddedCompound.mk "Curcumin" "anti-inflammatory" "polyphenol"
               "https://example.org/curcumin"]].
Proof. vm_compute. reflexivity. Qed.

Example get_herb_unicorn_root :
  get_herb Demo.ilike Demo.db "unicorn-root" = HTTPException 404 "Herb not found".
Proof. vm_compute. reflexivity. Qed.

Example get_phytochemical_curcumin :
  get_phytochemical Demo.ilike Demo.db "CURC" =
  Return [CompoundRecord.mk "Curcumin" "anti-inflammatory" "C21H20O6" "polyphenol"
            "https://example.org/curcumin"
            [EmbeddedHerb.mk "Turmeric" "Curcuma longa" "anti-inflammatory"
               "https://example.org/turmeric";
             EmbeddedHerb.mk "Ginger" "Zingiber officinale" "nausea"
               "https://example.org/ginger"]].
Proof. vm_compute. reflexivity. Qed.

Example search_demo :
  search Demo.rerank Demo.db "root for nausea" =
  Return [Hit.mk "herb" "Ginger" "nausea" "https://example.org/ginger";
          Hit.mk "herb" "Turmeric" "anti-inflammatory" "https://example.org/turmeric"].
Proof. vm_compute. reflexivity. Qed.

(** ** Not found and service errors *)

Section Errors.

Variable ilike : string → string → bool.
Variable co_rerank : string → list string → Z → string → RerankOutcome.

(** C2: a herb name with no matching row makes [get_herb] raise
    [HTTPException(404, "Herb not found")], and a compound name with no
    matching row makes [get_phytochemical] raise
    [HTTPException(404, "Compound not found")]; neither returns a body. *)
Theorem not_found_404 (db : Store.t) (name : string) :
  (select_ilike ilike Herb.herb_name ("%" +:+ name +:+ "%") (Store.herbs db) = [] →
     get_herb ilike db name = HTTPException 404 "Herb not found"
     ∧ status (get_herb ilike db name) = 404
     ∧ ∀ body, get_herb ilike db name ≠ Return body)
  ∧
  (select_ilike ilike Compound.compound_name ("%" +:+ name +:+ "%")
       (Store.phytochemicals db) = [] →
     get_phytochemical ilike db name = HTTPException 404 "Compound not found"
     ∧ status (get_phytochemical ilike db name) = 404
     ∧ ∀ body, get_phytochemical ilike db name ≠ Return body).
Proof.
  split; intros Hnone.
  - unfold get_herb. rewrite Hnone. by repeat split.
  - unfold get_phytochemical. rewrite Hnone. by repeat split.
Qed.

(** C4: when the rerank call raises, [search] raises
    [HTTPException(500, "Cohere error: " + str(e))] and returns no list. *)
Theorem search_rerank_failure (db : Store.t) (q message : string) :
  co_rerank q (documents_of db) 5 "rerank-english-v2.0" = Raised message →
  search co_rerank db q = HTTPException 500 ("Cohere error: " +:+ message)
  ∧ status (search co_rerank db q) = 500
  ∧ ∀ results, search co_rerank db q ≠ Return results.
Proof.
  intros Hraise. unfold search. unfold documents_of in Hraise.
  destruct (prepare_documents _ _) as [documents meta]. simpl in Hraise.
  rewrite Hraise. by repeat split.
Qed.

End Errors.

Lemma not_found_404_witness :
  (get_herb Demo.ilike Demo.db "unicorn-root" = HTTPException 404 "Herb not found"
   ∧ status (get_herb Demo.ilike Demo.db "unicorn-root") = 404
   ∧ ∀ body, get_herb Demo.ilike Demo.db "unicorn-root" ≠ Return body)
  ∧
  (get_phytochemical Demo.ilike Demo.db "unicorn-root"
     = HTTPException 404 "Compound not found"
   ∧ status (get_phytochemical Demo.ilike Demo.db "unicorn-root") = 404
   ∧ ∀ body, get_phytochemical Demo.ilike Demo.db "unicorn-root" ≠ Return body).
Proof.
  split.
  - apply (not_found_404 Demo.ilike Demo.db "unicorn-root"). vm_compute. reflexivity.
  - apply (not_found_404 Demo.ilike Demo.db "unicorn-root"). vm_compute. reflexivity.
Defined.

Lemma search_rerank_failure_witness :
  search Demo.rerank_down Demo.db "fever"
    = HTTPException 500 "Cohere error: status_code: 429, body: rate limit"
  ∧ status (search Demo.rerank_down Demo.db "fever") = 500
  ∧ ∀ results, search Demo.rerank_down Demo.db "fever" ≠ Return results.
Proof.
  apply (search_rerank_failure Demo.rerank_down Demo.db "fever"
           "status_code: 429, body: rate limit").
  reflexivity.
Defined.

(** ** The join helpers *)

Section Joins.

Context {R : Type} (column : R → Z).

Lemma select_in_nil (table : list R) : select_in column [] table = [].
Proof.
  unfold select_in. induction table as [|row table IH]; [done|].
  rewrite filter_cons_False; [done|]. apply not_elem_of_nil.
Qed.

Lemma select_in_ext (values values' : list Z) (table : list R) :
  (∀ v, v ∈ values ↔ v ∈ values') →
  select_in column values table = select_in column values' table.
Proof. intros Hsame. apply list_filter_iff. intros row. apply Hsame. Qed.

Lemma select_in_remove_dups (values : list Z) (table : list R) :
  select_in column (remove_dups values) table = select_in column values table.
Proof. apply select_in_ext. intros v. apply elem_of_remove_dups. Qed.

Lemma select_in_none (values : list Z) (table : list R) :
  Forall (λ row, column row ∉ values) table → select_in column values table = [].
Proof.
  unfold select_in. induction 1 as [|row table Hrow _ IH]; [done|].
  by rewrite filter_cons_False.
Qed.

Lemma elem_of_select_in (values : list Z) (table : list R) (row : R) :
  row ∈ select_in column values table ↔ column row ∈ values ∧ row ∈ table.
Proof. unfold select_in. by rewrite list_elem_of_filter. Qed.

End Joins.

(** The early return of the helpers is the empty case of the second query. *)
Lemma get_related_compounds_unfold (db : Store.t) (herb_ids : list Z) :
  get_related_compounds db herb_ids =
  select_in Compound.compound_id
    (Link.compound_id <$> select_in Link.herb_id herb_ids (Store.herb_phytochemical db))
    (Store.phytochemicals db).
Proof.
  unfold get_related_compounds.
  destruct (select_in Link.herb_id herb_ids _); [|done].
  by rewrite select_in_nil.
Qed.

Lemma get_related_herbs_unfold (db : Store.t) (compound_ids : list Z) :
  get_related_herbs db compound_ids =
  select_in Herb.herb_id
    (Link.herb_id <$> select_in Link.compound_id compound_ids (Store.herb_phytochemical db))
    (Store.herbs db).
Proof.
  unfold get_related_herbs.
  destruct (select_in Link.compound_id compound_ids _); [|done].
  by rewrite select_in_nil.
Qed.

(** C5: the helpers return the empty list for no identifiers, and for
    identifiers that no row of the link table carries. *)
Theorem related_of_nothing (db : Store.t) :
  get_related_compounds db [] = []
  ∧ get_related_herbs db [] = []
  ∧ (∀ herb_ids,
       Forall (λ hp, Link.herb_id hp ∉ herb_ids) (Store.herb_phytochemical db) →
       get_related_compounds db herb_ids = [])
  ∧ (∀ compound_ids,
       Forall (λ hp, Link.compound_id hp ∉ compound_ids) (Store.herb_phytochemical db) →
       get_related_herbs db compound_ids = []).
Proof.
  repeat split.
  - unfold get_related_compounds. by rewrite select_in_nil.
  - unfold get_related_herbs. by rewrite select_in_nil.
  - intros herb_ids Hnone. unfold get_related_compounds.
    by rewrite (select_in_none _ _ _ Hnone).
  - intros compound_ids Hnone. unfold get_related_herbs.
    by rewrite (select_in_none _ _ _ Hnone).
Qed.

Lemma related_of_nothing_witness :
  get_related_compounds Demo.db [7; 8] = [] ∧ get_related_herbs Demo.db [9] = [].
Proof.
  split.
  - apply (related_of_nothing Demo.db). apply (bool_decide_unpack _). vm_compute. exact I.
  - apply (related_of_nothing Demo.db). apply (bool_decide_unpack _). vm_compute. exact I.
Defined.

(** C6: repeated identifiers change nothing.  The rows returned for a list
    of identifiers are the rows returned for the list without its repeats;
    the identifiers gathered from the link rows may repeat as well without
    effect; and the answer is a sub-list of the table, so a row is returned
    at most as often as the table holds it. *)
Theorem related_duplicates (db : Store.t) (ids : list Z) :
  (get_related_compounds db ids = get_related_compounds db (remove_dups ids)
   ∧ get_related_compounds db ids =
       select_in Compound.compound_id
         (remove_dups (Link.compound_id <$>
            select_in Link.herb_id (remove_dups ids) (Store.herb_phytochemical db)))
         (Store.phytochemicals db)
   ∧ get_related_compounds db ids `sublist_of` Store.phytochemicals db
   ∧ (NoDup (Store.phytochemicals db) → NoDup (get_related_compounds db ids)))
  ∧
  (get_related_herbs db ids = get_related_herbs db (remove_dups ids)
   ∧ get_related_herbs db ids =
       select_in Herb.herb_id
         (remove_dups (Link.herb_id <$>
            select_in Link.compound_id (remove_dups ids) (Store.herb_phytochemical db)))
         (Store.herbs db)
   ∧ get_related_herbs db ids `sublist_of` Store.herbs db
   ∧ (NoDup (Store.herbs db) → NoDup (get_related_herbs db ids))).
Proof.
  split.
  - rewrite !get_related_compounds_unfold, !select_in_remove_dups.
    repeat split.
    + apply sublist_filter.
    + apply NoDup_filter.
  - rewrite !get_related_herbs_unfold, !select_in_remove_dups.
    repeat split.
    + apply sublist_filter.
    + apply NoDup_filter.
Qed.

Example related_duplicates_demo :
  get_related_compounds Demo.db [2; 2; 1; 2] = [Demo.curcumin; Demo.gingerol; Demo.eugenol]
  ∧ get_related_compounds Demo.db [2; 1] = [Demo.curcumin; Demo.gingerol; Demo.eugenol]
  ∧ get_related_herbs Demo.db [1; 1] = [Demo.turmeric; Demo.ginger].
Proof. vm_compute. done. Qed.

(** ** Search: the candidate documents *)

Section Documents.

Context {X : Type} (text : X → string) (record : X → Hit.t).

Lemma foldl_documents (rows : list X) (documents : list string) (meta : list Hit.t) :
  foldl (λ '(documents, meta) x, (documents ++ [text x], meta ++ [record x]))
        (documents, meta) rows
  = (documents ++ (text <$> rows), meta ++ (record <$> rows)).
Proof.
  revert documents meta.
  induction rows as [|x rows IH]; intros documents meta; simpl.
  - by rewrite !app_nil_r.
  - rewrite IH. by rewrite <- !app_assoc.
Qed.

End Documents.

Lemma prepare_documents_eq (herbs : list Herb.t) (compounds : list Compound.t) :
  prepare_documents herbs compounds =
  ((herb_text <$> herbs) ++ (compound_text <$> compounds),
   (herb_meta <$> herbs) ++ (compound_meta <$> compounds)).
Proof. unfold prepare_documents. by rewrite !foldl_documents. Qed.

(** C8: the candidate list holds one document per herb, in store order,
    followed by one per compound, in store order; the texts and the
    parallel metadata records are the ones written out below. *)
Theorem documents_layout (herbs : list Herb.t) (compounds : list Compound.t) :
  prepare_documents herbs compounds =
  (((λ h, "Herb: " +:+ Herb.herb_name h +:+ ". Uses: " +:+ Herb.uses h
            +:+ ". Origin: " +:+ Herb.origin h) <$> herbs)
   ++ ((λ c, "Compound: " +:+ Compound.compound_name c +:+ ". Function: "
               +:+ Compound.function c +:+ ". Type: " +:+ Compound.compound_type c)
         <$> compounds),
   ((λ h, Hit.mk "herb" (Herb.herb_name h) (Herb.uses h) (Herb.source_url h))
      <$> herbs)
   ++ ((λ c, Hit.mk "compound" (Compound.compound_name c) (Compound.function c)
               (Compound.source_url c)) <$> compounds)).
Proof. apply prepare_documents_eq. Qed.

Example documents_demo :
  prepare_documents [Demo.turmeric] [Demo.curcumin] =
  (["Herb: Turmeric. Uses: anti-inflammatory. Origin: India";
    "Compound: Curcumin. Function: anti-inflammatory. Type: polyphenol"],
   [Hit.mk "herb" "Turmeric" "anti-inflammatory" "https://example.org/turmeric";
    Hit.mk "compound" "Curcumin" "anti-inflammatory" "https://example.org/curcumin"]).
Proof. reflexivity. Qed.

Lemma getitem_position {A} (l : list A) (i : Z) :
  0 ≤ i → getitem l i = l !! Z.to_nat i.
Proof. intros Hi. unfold getitem. by rewrite decide_True. Qed.

(** C10: [documents] and [meta] have the same length, position by position
    they describe the same row, and a rerank result whose index is a
    position of [documents] finds, in [meta], the record of the row whose
    text was scored. *)
Theorem documents_meta_parallel (db : Store.t) :
  length (documents_of db) = length (meta_of db)
  ∧ documents_of db = entity_text <$> entities db
  ∧ meta_of db = entity_meta <$> entities db
  ∧ ∀ result : RerankResult,
      0 ≤ index result < Z.of_nat (length (documents_of db)) →
      ∃ e, entities db !! Z.to_nat (index result) = Some e
           ∧ documents_of db !! Z.to_nat (index result) = Some (entity_text e)
           ∧ getitem (meta_of db) (index result) = Some (entity_meta e).
Proof.
  assert (Hdocs : documents_of db = entity_text <$> entities db).
  { unfold documents_of, entities. rewrite prepare_documents_eq. simpl.
    by rewrite fmap_app, <- !list_fmap_compose. }
  assert (Hmeta : meta_of db = entity_meta <$> entities db).
  { unfold meta_of, entities. rewrite prepare_documents_eq. simpl.
    by rewrite fmap_app, <- !list_fmap_compose. }
  split; [by rewrite Hdocs, Hmeta, !length_fmap|].
  split; [done|]. split; [done|].
  intros result [Hlo Hhi].
  rewrite Hdocs, length_fmap in Hhi.
  destruct (lookup_lt_is_Some_2 (entities db) (Z.to_nat (index result))) as [e He];
    [lia|].
  exists e. split; [done|].
  rewrite getitem_position by done.
  by rewrite Hdocs, Hmeta, !list_lookup_fmap, He.
Qed.

Lemma documents_meta_parallel_witness :
  ∃ e, entities Demo.db !! 4%nat = Some e
       ∧ documents_of Demo.db !! 4%nat = Some (entity_text e)
       ∧ getitem (meta_of Demo.db) 4 = Some (entity_meta e).
Proof.
  destruct (documents_meta_parallel Demo.db) as (_ & _ & _ & Hlookup).
  apply (Hlookup (mkRerankResult 4 0.5%float)).
  vm_compute. split; [discriminate | reflexivity].
Defined.

(** ** Search: threshold, cap and outcomes *)

Lemma Forall2_with_left {A B} (P : A → Prop) (Q : A → B → Prop) (l : list A)
    (k : list B) :
  Forall P l → Forall2 Q l k → Forall2 (λ x y, P x ∧ Q x y) l k.
Proof.
  intros HP HQ. induction HQ as [|x y l k Hxy _ IH]; [constructor|].
  apply Forall_cons in HP as [Hx Hl]. constructor; auto.
Qed.

Lemma qualifying_Forall (results : list RerankResult) :
  Forall (λ result, above_threshold result = true ∧ result ∈ results)
         (qualifying results).
Proof.
  apply Forall_forall. intros result Hin.
  unfold qualifying in Hin. by apply list_elem_of_filter in Hin.
Qed.

(** The loop appends, to [results], the [meta] entry of each qualifying
    result, and stops at the first index outside [meta]. *)
Lemma compile_results_eq (meta : list Hit.t) (rerank_results : list RerankResult)
    (results : list Hit.t) :
  compile_results meta rerank_results results =
  match mapM (λ result, getitem meta (index result)) (qualifying rerank_results) with
  | Some hits => Return (results ++ hits)
  | None => Unhandled IndexError
  end.
Proof.
  revert results. unfold qualifying.
  induction rerank_results as [|result rest IH]; intros results; simpl.
  - by rewrite app_nil_r.
  - destruct (above_threshold result) eqn:Habove.
    + rewrite filter_cons_True by done. simpl.
      destruct (getitem meta (index result)) as [data|]; [|done]. simpl.
      rewrite IH. destruct data.
      destruct (mapM _ _) as [hits|]; simpl; [|done].
      by rewrite <- app_assoc.
    + rewrite filter_cons_False by (rewrite Habove; discriminate). apply IH.
Qed.

Lemma getitem_well_indexed {A} (documents : list string) (meta : list A)
    (results : list RerankResult) :
  length documents = length meta →
  well_indexed documents results →
  Forall (is_Some ∘ (λ result, getitem meta (index result))) results.
Proof.
  intros Hlen Hidx. eapply Forall_impl; [exact Hidx|].
  intros result [Hlo Hhi]. simpl.
  rewrite getitem_position by done. apply lookup_lt_is_Some_2. lia.
Qed.

Lemma well_indexed_qualifying (documents : list string) (results : list RerankResult) :
  well_indexed documents results → well_indexed documents (qualifying results).
Proof.
  unfold well_indexed. rewrite !Forall_forall. intros Hall result Hin.
  apply Hall. unfold qualifying in Hin. by apply list_elem_of_filter in Hin as [_ ?].
Qed.

Lemma prepare_documents_length (herbs : list Herb.t) (compounds : list Compound.t) :
  length (prepare_documents herbs compounds).1
  = length (prepare_documents herbs compounds).2.
Proof. rewrite prepare_documents_eq. simpl. by rewrite !length_app, !length_fmap. Qed.

Section Search.

Variable co_rerank : string → list string → Z → string → RerankOutcome.
Variable db : Store.t.
Variable q : string.

Lemma search_reranked (rerank_results : list RerankResult) :
  co_rerank q (documents_of db) 5 "rerank-english-v2.0" = Reranked rerank_results →
  search co_rerank db q =
  match mapM (λ result, getitem (meta_of db) (index result)) (qualifying rerank_results) with
  | Some hits => Return (take 5 hits)
  | None => Unhandled IndexError
  end.
Proof.
  unfold search, documents_of, meta_of.
  destruct (prepare_documents _ _) as [docs metas]. simpl.
  intros ->. rewrite compile_results_eq.
  by destruct (mapM _ _).
Qed.

Lemma search_returns (rerank_results : list RerankResult) :
  co_rerank q (documents_of db) 5 "rerank-english-v2.0" = Reranked rerank_results →
  well_indexed (documents_of db) (qualifying rerank_results) →
  ∃ results, search co_rerank db q = Return results.
Proof.
  intros Hcall Hidx. rewrite (search_reranked _ Hcall).
  destruct (mapM_is_Some_2 (λ result, getitem (meta_of db) (index result))
              (qualifying rerank_results)) as [hits ->]; [|by eexists].
  eapply getitem_well_indexed; [|done].
  apply prepare_documents_length.
Qed.

(** C3: every element of the list [search] returns is the [meta] entry of a
    rerank result whose relevance score is strictly greater than 0.2, in
    the ranker's order; the list has at most 5 elements; and when fewer
    than 5 results score above 0.2 each of them is returned.  A list is
    returned whenever the results scoring above 0.2 index positions of the
    submitted documents. *)
Theorem search_threshold_and_cap (rerank_results : list RerankResult) :
  co_rerank q (documents_of db) 5 "rerank-english-v2.0" = Reranked rerank_results →
  (well_indexed (documents_of db)
     (filter (λ result, PrimFloat.ltb 0.2 (relevance_score result) = true)
        rerank_results) →
   ∃ results, search co_rerank db q = Return results)
  ∧ ∀ results,
      search co_rerank db q = Return results →
      Forall2 (λ result hit,
                 (PrimFloat.ltb 0.2 (relevance_score result) = true
                  ∧ result ∈ rerank_results)
                 ∧ getitem (meta_of db) (index result) = Some hit)
              (take 5 (filter (λ result,
                                 PrimFloat.ltb 0.2 (relevance_score result) = true)
                         rerank_results))
              results
      ∧ (length results ≤ 5)%nat
      ∧ ((length (filter (λ result,
                            PrimFloat.ltb 0.2 (relevance_score result) = true)
                    rerank_results) < 5)%nat →
         Forall2 (λ result hit,
                    (PrimFloat.ltb 0.2 (relevance_score result) = true
                     ∧ result ∈ rerank_results)
                    ∧ getitem (meta_of db) (index result) = Some hit)
                 (filter (λ result,
                            PrimFloat.ltb 0.2 (relevance_score result) = true)
                    rerank_results)
                 results).
Proof.
  change (filter (λ result, PrimFloat.ltb 0.2 (relevance_score result) = true)
            rerank_results)
    with (qualifying rerank_results).
  intros Hcall. split; [by apply search_returns|].
  rewrite (search_reranked _ Hcall).
  intros results Hret.
  destruct (mapM _ _) as [hits|] eqn:Hhits; [|done].
  injection Hret as <-.
  apply mapM_Some in Hhits.
  pose proof (Forall2_with_left _ _ _ _ (qualifying_Forall rerank_results) Hhits)
    as Hall.
  unfold above_threshold in Hall.
  split; [by apply Forall2_take|].
  split; [rewrite length_take; lia|].
  intros Hfew. rewrite take_ge; [done|].
  rewrite <- (Forall2_length _ _ _ Hhits). lia.
Qed.

(** C9: [search] never answers 404.  When the rerank call succeeds with
    indices that are positions of the submitted documents it returns a
    body (status 200); when no result is above the threshold the body is
    the empty list; and so it is when both tables are empty. *)
Theorem search_never_not_found :
  status (search co_rerank db q) ≠ 404
  ∧ (∀ rerank_results,
       co_rerank q (documents_of db) 5 "rerank-english-v2.0" = Reranked rerank_results →
       well_indexed (documents_of db) rerank_results →
       ∃ results, search co_rerank db q = Return results
                  ∧ status (search co_rerank db q) = 200)
  ∧ (∀ rerank_results,
       co_rerank q (documents_of db) 5 "rerank-english-v2.0" = Reranked rerank_results →
       qualifying rerank_results = [] →
       search co_rerank db q = Return [])
  ∧ (Store.herbs db = [] → Store.phytochemicals db = [] →
     ∀ rerank_results,
       co_rerank q [] 5 "rerank-english-v2.0" = Reranked rerank_results →
       well_indexed [] rerank_results →
       search co_rerank db q = Return []).
Proof.
  repeat split.
  - destruct (co_rerank q (documents_of db) 5 "rerank-english-v2.0") as [rs|message] eqn:Hcall.
    + rewrite (search_reranked _ Hcall). by destruct (mapM _ _).
    + unfold search, documents_of in *.
      destruct (prepare_documents _ _). simpl in Hcall. by rewrite Hcall.
  - intros rs Hcall Hidx.
    destruct (search_returns rs Hcall) as [results Hret];
      [by apply well_indexed_qualifying|].
    exists results. by rewrite Hret.
  - intros rs Hcall Hnone. rewrite (search_reranked _ Hcall). by rewrite Hnone.
  - intros Hherbs Hcompounds rs Hcall Hidx.
    assert (Hdocs : documents_of db = []).
    { unfold documents_of. by rewrite Hherbs, Hcompounds. }
    rewrite <- Hdocs in Hcall.
    rewrite (search_reranked _ Hcall).
    destruct rs as [|result rs]; [done|].
    apply Forall_cons in Hidx as [Hbad _]. simpl in Hbad. lia.
Qed.

End Search.

(** ** Result assembly *)

Section NextWhere.

Context {A : Type}.

Lemma next_where_Some (P : A → bool) (l : list A) (x : A) :
  next_where P l = Some x → x ∈ l ∧ P x = true.
Proof.
  induction l as [|y l IH]; simpl; [done|].
  destruct (P y) eqn:HP.
  - intros [= ->]. split; [left | done].
  - intros Hfound. destruct (IH Hfound). split; [by right | done].
Qed.

Lemma next_where_None (P : A → bool) (l : list A) :
  next_where P l = None ↔ Forall (λ x, P x = false) l.
Proof.
  induction l as [|y l IH]; simpl.
  - split; [constructor | done].
  - rewrite Forall_cons. destruct (P y).
    + split; [done | by intros [? _]].
    + rewrite IH. split; [done | by intros [_ ?]].
Qed.

Lemma next_where_is_Some (P : A → bool) (l : list A) (x : A) :
  x ∈ l → P x = true → is_Some (next_where P l).
Proof.
  intros Hin HP. destruct (next_where P l) eqn:Hnext; [by eexists|].
  apply next_where_None in Hnext.
  rewrite Forall_forall in Hnext. rewrite (Hnext x Hin) in HP. done.
Qed.

(** Filtering a list by a condition the sought element meets does not
    change which element is found first. *)
Lemma next_where_filter (P : A → bool) (Q : A → Prop) `{!∀ x, Decision (Q x)}
    (l : list A) :
  (∀ x, P x = true → Q x) → next_where P (filter Q l) = next_where P l.
Proof.
  intros HPQ. induction l as [|y l IH]; [done|].
  rewrite filter_cons. simpl. destruct (P y) eqn:HP.
  - rewrite decide_True by auto. simpl. by rewrite HP.
  - destruct (decide (Q y)); simpl; [rewrite HP|]; apply IH.
Qed.

(** With unique keys, the element found for the key of [x] is [x]. *)
Lemma next_where_key (key : A → Z) (l : list A) (x : A) :
  NoDup (key <$> l) → x ∈ l →
  next_where (λ y, bool_decide (key y = key x)) l = Some x.
Proof.
  induction l as [|y l IH]; intros Hnodup Hin; [by apply elem_of_nil in Hin|].
  rewrite fmap_cons in Hnodup. apply NoDup_cons in Hnodup as [Hfresh Hnodup].
  simpl. apply elem_of_cons in Hin as [->|Hin].
  - by rewrite bool_decide_eq_true_2.
  - rewrite bool_decide_eq_false_2; [by apply IH|].
    intros Hsame. apply Hfresh. rewrite Hsame. by apply list_elem_of_fmap_2.
Qed.

End NextWhere.

Section Grouping.

Context {X V : Type} (key : Link.t → Z) (found : Link.t → option X) (embed : X → V).

Lemma get_or_empty_setdefault_append (m : gmap Z (list V)) (k k' : Z) (v : V) :
  get_or_empty (setdefault_append m k v) k' =
  if decide (k = k') then get_or_empty m k' ++ [v] else get_or_empty m k'.
Proof.
  unfold get_or_empty, setdefault_append. rewrite lookup_insert.
  destruct (decide (k = k')) as [->|]; done.
Qed.

(** What the loop leaves under key [k]: the embeddings of the entities
    found for the link rows with that key, in the order of the rows. *)
Lemma foldl_group_step (links : list Link.t) (m : gmap Z (list V)) (k : Z) :
  get_or_empty (foldl (group_step key found embed) m links) k =
  get_or_empty m k ++ (embed <$> omap found (filter (λ hp, key hp = k) links)).
Proof.
  revert m. induction links as [|hp links IH]; intros m; simpl.
  - by rewrite app_nil_r.
  - rewrite IH, filter_cons. unfold group_step.
    destruct (found hp) as [x|] eqn:Hfound.
    + rewrite get_or_empty_setdefault_append.
      destruct (decide (key hp = k)); simpl; [|done].
      by rewrite Hfound, fmap_cons, <- app_assoc.
    + destruct (decide (key hp = k)); simpl; [|done]. by rewrite Hfound.
Qed.

(** A link row for which nothing is found does not change the dict. *)
Lemma foldl_group_step_skip (before after : list Link.t) (hp : Link.t)
    (m : gmap Z (list V)) :
  found hp = None →
  foldl (group_step key found embed) m (before ++ hp :: after) =
  foldl (group_step key found embed) m (before ++ after).
Proof.
  intros Hnone. rewrite !foldl_app. simpl.
  f_equal. unfold group_step. by rewrite Hnone.
Qed.

Lemma omap_ext_elem_of (found' : Link.t → option X) (links : list Link.t) :
  (∀ hp, hp ∈ links → found hp = found' hp) → omap found links = omap found' links.
Proof.
  induction links as [|hp links IH]; intros Hsame; [done|]. simpl.
  rewrite (Hsame hp) by left.
  destruct (found' hp); [f_equal|]; apply IH; intros hp' Hin; apply Hsame; by right.
Qed.

Lemma omap_total (links : list Link.t) :
  Forall (λ hp, is_Some (found hp)) links →
  Forall2 (λ hp x, found hp = Some x) links (omap found links).
Proof.
  induction 1 as [|hp links [x Hx] _ IH]; simpl; [constructor|].
  rewrite Hx. simpl. by constructor.
Qed.

End Grouping.

Lemma build_compound_map_get (compounds : list Compound.t) (links : list Link.t)
    (k : Z) :
  get_or_empty (build_compound_map compounds links) k =
  embed_compound <$>
    omap (λ hp, next_where (λ c, bool_decide (Compound.compound_id c = Link.compound_id hp))
                  compounds)
         (filter (λ hp, Link.herb_id hp = k) links).
Proof.
  unfold build_compound_map.
  change (compound_map_step compounds) with
    (group_step Link.herb_id
       (λ hp, next_where (λ c, bool_decide (Compound.compound_id c = Link.compound_id hp))
                compounds)
       embed_compound).
  by rewrite foldl_group_step.
Qed.

Lemma build_herb_map_get (herbs : list Herb.t) (links : list Link.t) (k : Z) :
  get_or_empty (build_herb_map herbs links) k =
  embed_herb <$>
    omap (λ hp, next_where (λ h, bool_decide (Herb.herb_id h = Link.herb_id hp)) herbs)
         (filter (λ hp, Link.compound_id hp = k) links).
Proof.
  unfold build_herb_map.
  change (herb_map_step herbs) with
    (group_step Link.compound_id
       (λ hp, next_where (λ h, bool_decide (Herb.herb_id h = Link.herb_id hp)) herbs)
       embed_herb).
  by rewrite foldl_group_step.
Qed.

Section Lookups.

Variable ilike : string → string → bool.

(** The body of a successful herb lookup, written against the tables: one
    record per matching herb, whose list embeds, for each link row of the
    herb in store order, the first compound row with the linked identifier
    when there is one. *)
Lemma get_herb_body (db : Store.t) (name : string) :
  get_herb ilike db name =
  match select_ilike ilike Herb.herb_name ("%" +:+ name +:+ "%") (Store.herbs db) with
  | [] => HTTPException 404 "Herb not found"
  | h0 :: herbs =>
      Return ((λ h, HerbRecord.mk (Herb.herb_name h) (Herb.scientific_name h)
                      (Herb.uses h) (Herb.origin h) (Herb.source_url h)
                      (embed_compound <$>
                         omap (λ hp, compound_by_id db (Link.compound_id hp))
                              (links_of_herb db (Herb.herb_id h))))
                <$> h0 :: herbs)
  end.
Proof.
  unfold get_herb.
  destruct (select_ilike _ _ _ _) as [|h0 herbs]; [done|].
  set (matching := h0 :: herbs). f_equal.
  apply list_fmap_ext. intros i h Hi.
  assert (Hid : Herb.herb_id h ∈ Herb.herb_id <$> matching).
  { apply list_elem_of_fmap_2. by eapply list_elem_of_lookup_2. }
  unfold herb_record. f_equal.
  rewrite build_compound_map_get. f_equal.
  unfold select_in at 1. rewrite list_filter_filter_l by (by intros hp ->).
  fold (links_of_herb db (Herb.herb_id h)).
  apply omap_ext_elem_of. intros hp Hhp.
  rewrite get_related_compounds_unfold. unfold compound_by_id.
  apply next_where_filter. intros c Hc.
  apply bool_decide_eq_true_1 in Hc. rewrite Hc.
  apply list_elem_of_fmap_2. apply elem_of_select_in.
  unfold links_of_herb in Hhp. apply list_elem_of_filter in Hhp as [-> Hin].
  by split.
Qed.

Lemma get_phytochemical_body (db : Store.t) (name : string) :
  get_phytochemical ilike db name =
  match select_ilike ilike Compound.compound_name ("%" +:+ name +:+ "%")
          (Store.phytochemicals db) with
  | [] => HTTPException 404 "Compound not found"
  | c0 :: compounds =>
      Return ((λ c, CompoundRecord.mk (Compound.compound_name c) (Compound.function c)
                      (Compound.chemical_structure c) (Compound.compound_type c)
                      (Compound.source_url c)
                      (embed_herb <$>
                         omap (λ hp, herb_by_id db (Link.herb_id hp))
                              (links_of_compound db (Compound.compound_id c))))
                <$> c0 :: compounds)
  end.
Proof.
  unfold get_phytochemical.
  destruct (select_ilike _ _ _ _) as [|c0 compounds]; [done|].
  set (matching := c0 :: compounds). f_equal.
  apply list_fmap_ext. intros i c Hi.
  assert (Hid : Compound.compound_id c ∈ Compound.compound_id <$> matching).
  { apply list_elem_of_fmap_2. by eapply list_elem_of_lookup_2. }
  unfold compound_record. f_equal.
  rewrite build_herb_map_get. f_equal.
  unfold select_in at 1. rewrite list_filter_filter_l by (by intros hp ->).
  fold (links_of_compound db (Compound.compound_id c)).
  apply omap_ext_elem_of. intros hp Hhp.
  rewrite get_related_herbs_unfold. unfold herb_by_id.
  apply next_where_filter. intros h Hh.
  apply bool_decide_eq_true_1 in Hh. rewrite Hh.
  apply list_elem_of_fmap_2. apply elem_of_select_in.
  unfold links_of_compound in Hhp. apply list_elem_of_filter in Hhp as [-> Hin].
  by split.
Qed.

(** C1: when at least one herb matches and every link row names rows of
    both tables, [get_herb] returns (status 200) one record per matching
    herb, in store order.  The record's [phytochemicals] has, for each
    link row of that herb, an entry carrying the name, function, type and
    source URL of a compound row with the linked identifier: an entry per
    link row, and no entry without one.  When compound identifiers are
    unique the embedded compounds are exactly the rows of [phytochemicals]
    that some link row relates to the herb's identifier. *)
Theorem get_herb_found (db : Store.t) (name : string) :
  filter (λ h, ilike ("%" +:+ name +:+ "%") (Herb.herb_name h) = true)
    (Store.herbs db) ≠ [] →
  referential_integrity db →
  ∃ body,
    get_herb ilike db name = Return body
    ∧ status (get_herb ilike db name) = 200
    ∧ Forall2
        (λ h record,
           HerbRecord.herb_name record = Herb.herb_name h
           ∧ HerbRecord.scientific_name record = Herb.scientific_name h
           ∧ HerbRecord.uses record = Herb.uses h
           ∧ HerbRecord.origin record = Herb.origin h
           ∧ HerbRecord.source_url record = Herb.source_url h
           ∧ ∃ compounds : list Compound.t,
               Forall2 (λ c entry,
                          EmbeddedCompound.compound_name entry = Compound.compound_name c
                          ∧ EmbeddedCompound.function entry = Compound.function c
                          ∧ EmbeddedCompound.compound_type entry
                            = Compound.compound_type c
                          ∧ EmbeddedCompound.source_url entry = Compound.source_url c)
                       compounds (HerbRecord.phytochemicals record)
               ∧ Forall2 (λ hp c, c ∈ Store.phytochemicals db
                                  ∧ Compound.compound_id c = Link.compound_id hp)
                         (links_of_herb db (Herb.herb_id h)) compounds
               ∧ (NoDup (Compound.compound_id <$> Store.phytochemicals db) →
                  ∀ c, c ∈ compounds ↔
                       c ∈ Store.phytochemicals db
                       ∧ ∃ hp, hp ∈ Store.herb_phytochemical db
                               ∧ Link.herb_id hp = Herb.herb_id h
                               ∧ Link.compound_id hp = Compound.compound_id c))
        (filter (λ h, ilike ("%" +:+ name +:+ "%") (Herb.herb_name h) = true)
           (Store.herbs db))
        body.
Proof.
  change (filter (λ h, ilike ("%" +:+ name +:+ "%") (Herb.herb_name h) = true)
            (Store.herbs db))
    with (select_ilike ilike Herb.herb_name ("%" +:+ name +:+ "%") (Store.herbs db)).
  intros Hmatch Hintegrity. rewrite get_herb_body.
  destruct (select_ilike _ _ _ _) as [|h0 herbs]; [done|].
  eexists. split; [done|]. split; [done|].
  apply Forall2_fmap_r, Forall_Forall2_diag, Forall_forall.
  intros h _. simpl. do 5 (split; [done|]).
  exists (omap (λ hp, compound_by_id db (Link.compound_id hp))
            (links_of_herb db (Herb.herb_id h))).
  split.
  { apply Forall2_fmap_r, Forall_Forall2_diag, Forall_forall. by intros c _. }
  split.
  - eapply Forall2_impl.
    + apply omap_total. apply Forall_forall. intros hp Hhp.
      unfold links_of_herb in Hhp. apply list_elem_of_filter in Hhp as [_ Hin].
      unfold referential_integrity in Hintegrity.
      rewrite Forall_forall in Hintegrity.
      destruct (Hintegrity hp Hin) as [_ Hc].
      apply list_elem_of_fmap in Hc as (c & Hid & Hc).
      eapply (next_where_is_Some _ _ c); [done|]. by apply bool_decide_eq_true_2.
    + intros hp c Hfound. simpl in Hfound.
      apply next_where_Some in Hfound as [Hin Hid].
      by apply bool_decide_eq_true_1 in Hid.
  - intros Hkey c. rewrite list_elem_of_omap. split.
    + intros (hp & Hhp & Hfound).
      apply next_where_Some in Hfound as [Hin Hid].
      apply bool_decide_eq_true_1 in Hid.
      unfold links_of_herb in Hhp. apply list_elem_of_filter in Hhp as [Hh Hhp].
      split; [done|]. by exists hp.
    + intros (Hin & hp & Hhp & Hh & Hc).
      exists hp. split.
      * unfold links_of_herb. by apply list_elem_of_filter.
      * unfold compound_by_id. rewrite Hc. by apply next_where_key.
Qed.

(** C7: a link row whose compound (herb) is not in the fetched list leaves
    the assembled dict exactly as if the row were not there, whatever rows
    come before and after it; and a lookup with at least one match returns
    a body in which each record embeds the entities found for its link
    rows, the rows naming no entity contributing nothing. *)
Theorem dangling_links_skipped :
  (∀ compounds before hp after,
     Forall (λ c, Compound.compound_id c ≠ Link.compound_id hp) compounds →
     build_compound_map compounds (before ++ hp :: after)
     = build_compound_map compounds (before ++ after))
  ∧ (∀ herbs before hp after,
       Forall (λ h, Herb.herb_id h ≠ Link.herb_id hp) herbs →
       build_herb_map herbs (before ++ hp :: after)
       = build_herb_map herbs (before ++ after))
  ∧ (∀ db name,
       select_ilike ilike Herb.herb_name ("%" +:+ name +:+ "%") (Store.herbs db) ≠ [] →
       ∃ body,
         get_herb ilike db name = Return body
         ∧ Forall2
             (λ h record,
                HerbRecord.phytochemicals record =
                embed_compound <$>
                  omap (λ hp, compound_by_id db (Link.compound_id hp))
                       (links_of_herb db (Herb.herb_id h)))
             (select_ilike ilike Herb.herb_name ("%" +:+ name +:+ "%") (Store.herbs db))
             body)
  ∧ (∀ db name,
       select_ilike ilike Compound.compound_name ("%" +:+ name +:+ "%")
         (Store.phytochemicals db) ≠ [] →
       ∃ body,
         get_phytochemical ilike db name = Return body
         ∧ Forall2
             (λ c record,
                CompoundRecord.related_herbs record =
                embed_herb <$>
                  omap (λ hp, herb_by_id db (Link.herb_id hp))
                       (links_of_compound db (Compound.compound_id c)))
             (select_ilike ilike Compound.compound_name ("%" +:+ name +:+ "%")
                (Store.phytochemicals db))
             body).
Proof.
  split; [|split; [|split]].
  - intros compounds before hp after Habsent.
    apply (foldl_group_step_skip Link.herb_id
             (λ hp, next_where (λ c, bool_decide (Compound.compound_id c = Link.compound_id hp))
                      compounds) embed_compound).
    apply next_where_None. eapply Forall_impl; [exact Habsent|].
    intros c Hc. by apply bool_decide_eq_false_2.
  - intros herbs before hp after Habsent.
    apply (foldl_group_step_skip Link.compound_id
             (λ hp, next_where (λ h, bool_decide (Herb.herb_id h = Link.herb_id hp)) herbs)
             embed_herb).
    apply next_where_None. eapply Forall_impl; [exact Habsent|].
    intros h Hh. by apply bool_decide_eq_false_2.
  - intros db name Hmatch. rewrite get_herb_body.
    destruct (select_ilike _ _ _ _) as [|h0 herbs]; [done|].
    eexists. split; [done|].
    apply Forall2_fmap_r, Forall_Forall2_diag, Forall_forall. by intros h _.
  - intros db name Hmatch. rewrite get_phytochemical_body.
    destruct (select_ilike _ _ _ _) as [|c0 compounds]; [done|].
    eexists. split; [done|].
    apply Forall2_fmap_r, Forall_Forall2_diag, Forall_forall. by intros c _.
Qed.

End Lookups.

(** ** The theorems at the concrete store *)

Example get_herb_dangling :
  get_herb Demo.ilike Demo.db_dangling "ginger" =
  Return [HerbRecord.mk "Ginger" "Zingiber officinale" "nausea" "China"
            "https://example.org/ginger"
            [EmbeddedCompound.mk "Curcumin" "anti-inflammatory" "polyphenol"
               "https://example.org/curcumin"]].
Proof. vm_compute. reflexivity. Qed.

Example search_out_of_range :
  search (λ _ _ _ _, Reranked [mkRerankResult 6 0.5%float]) Demo.db "q"
  = Unhandled IndexError
  ∧ search (λ _ _ _ _, Reranked [mkRerankResult (-1) 0.5%float]) Demo.db "q"
    = Return [Hit.mk "compound" "Eugenol" "analgesic" "https://example.org/eugenol"].
Proof. vm_compute. done. Qed.

Lemma get_herb_found_witness :
  ∃ body,
    get_herb Demo.ilike Demo.db "ger" = Return body
    ∧ status (get_herb Demo.ilike Demo.db "ger") = 200
    ∧ Forall2
        (λ h record,
           HerbRecord.herb_name record = Herb.herb_name h
           ∧ HerbRecord.scientific_name record = Herb.scientific_name h
           ∧ HerbRecord.uses record = Herb.uses h
           ∧ HerbRecord.origin record = Herb.origin h
           ∧ HerbRecord.source_url record = Herb.source_url h
           ∧ ∃ compounds : list Compound.t,
               Forall2 (λ c entry,
                          EmbeddedCompound.compound_name entry = Compound.compound_name c
                          ∧ EmbeddedCompound.function entry = Compound.function c
                          ∧ EmbeddedCompound.compound_type entry
                            = Compound.compound_type c
                          ∧ EmbeddedCompound.source_url entry = Compound.source_url c)
                       compounds (HerbRecord.phytochemicals record)
               ∧ Forall2 (λ hp c, c ∈ Store.phytochemicals Demo.db
                                  ∧ Compound.compound_id c = Link.compound_id hp)
                         (links_of_herb Demo.db (Herb.herb_id h)) compounds
               ∧ (NoDup (Compound.compound_id <$> Store.phytochemicals Demo.db) →
                  ∀ c, c ∈ compounds ↔
                       c ∈ Store.phytochemicals Demo.db
                       ∧ ∃ hp, hp ∈ Store.herb_phytochemical Demo.db
                               ∧ Link.herb_id hp = Herb.herb_id h
                               ∧ Link.compound_id hp = Compound.compound_id c))
        (filter (λ h, Demo.ilike ("%" +:+ "ger" +:+ "%") (Herb.herb_name h) = true)
           (Store.herbs Demo.db))
        body.
Proof.
  apply (get_herb_found Demo.ilike Demo.db "ger").
  - vm_compute. discriminate.
  - apply (bool_decide_unpack _). vm_compute. exact I.
Defined.

Lemma related_duplicates_witness :
  NoDup (get_related_compounds Demo.db [2; 2; 1; 2])
  ∧ NoDup (get_related_herbs Demo.db [1; 1]).
Proof.
  split.
  - apply (related_duplicates Demo.db [2; 2; 1; 2]).
    apply (NoDup_fmap_1 Compound.compound_id).
    apply (bool_decide_unpack _). vm_compute. exact I.
  - apply (related_duplicates Demo.db [1; 1]).
    apply (NoDup_fmap_1 Herb.herb_id).
    apply (bool_decide_unpack _). vm_compute. exact I.
Defined.

Lemma search_threshold_and_cap_witness :
  ((∃ results, search Demo.rerank Demo.db "root for nausea" = Return results)
   ∧ Forall2 (λ result hit,
                (PrimFloat.ltb 0.2 (relevance_score result) = true
                 ∧ result ∈ [mkRerankResult 1 0.875%float; mkRerankResult 0 0.5%float;
                             mkRerankResult 2 0.125%float])
                ∧ getitem (meta_of Demo.db) (index result) = Some hit)
             [mkRerankResult 1 0.875%float; mkRerankResult 0 0.5%float]
             [Hit.mk "herb" "Ginger" "nausea" "https://example.org/ginger";
              Hit.mk "herb" "Turmeric" "anti-inflammatory"
                "https://example.org/turmeric"])
  ∧
  (Forall2 (λ result hit,
              (PrimFloat.ltb 0.2 (relevance_score result) = true
               ∧ result ∈ [mkRerankResult 3 0.875%float; mkRerankResult 0 0.2%float;
                           mkRerankResult 1 0.75%float; mkRerankResult 5 0.625%float;
                           mkRerankResult 0 0.5%float; mkRerankResult 4 0.375%float;
                           mkRerankResult 2 0.25%float; mkRerankResult 1 0.21875%float])
              ∧ getitem (meta_of Demo.db) (index result) = Some hit)
           [mkRerankResult 3 0.875%float; mkRerankResult 1 0.75%float;
            mkRerankResult 5 0.625%float; mkRerankResult 0 0.5%float;
            mkRerankResult 4 0.375%float]
           [Hit.mk "compound" "Curcumin" "anti-inflammatory" "https://example.org/curcumin";
            Hit.mk "herb" "Ginger" "nausea" "https://example.org/ginger";
            Hit.mk "compound" "Eugenol" "analgesic" "https://example.org/eugenol";
            Hit.mk "herb" "Turmeric" "anti-inflammatory" "https://example.org/turmeric";
            Hit.mk "compound" "Gingerol" "antiemetic" "https://example.org/gingerol"]
   ∧ (length
        [Hit.mk "compound" "Curcumin" "anti-inflammatory" "https://example.org/curcumin";
         Hit.mk "herb" "Ginger" "nausea" "https://example.org/ginger";
         Hit.mk "compound" "Eugenol" "analgesic" "https://example.org/eugenol";
         Hit.mk "herb" "Turmeric" "anti-inflammatory" "https://example.org/turmeric";
         Hit.mk "compound" "Gingerol" "antiemetic" "https://example.org/gingerol"]
      ≤ 5)%nat).
Proof.
  split.
  - destruct (search_threshold_and_cap Demo.rerank Demo.db "root for nausea"
                [mkRerankResult 1 0.875%float; mkRerankResult 0 0.5%float;
                 mkRerankResult 2 0.125%float] eq_refl) as [Hreturns Hbody].
    split.
    + apply Hreturns. apply (bool_decide_unpack _). vm_compute. exact I.
    + destruct (Hbody [Hit.mk "herb" "Ginger" "nausea" "https://example.org/ginger";
                       Hit.mk "herb" "Turmeric" "anti-inflammatory"
                         "https://example.org/turmeric"]) as (_ & _ & Hall).
      * vm_compute. reflexivity.
      * apply Hall. apply (bool_decide_unpack _). vm_compute. exact I.
  - destruct (search_threshold_and_cap
                (λ _ _ _ _,
                   Reranked [mkRerankResult 3 0.875%float; mkRerankResult 0 0.2%float;
                             mkRerankResult 1 0.75%float; mkRerankResult 5 0.625%float;
                             mkRerankResult 0 0.5%float; mkRerankResult 4 0.375%float;
                             mkRerankResult 2 0.25%float; mkRerankResult 1 0.21875%float])
                Demo.db "anything"
                [mkRerankResult 3 0.875%float; mkRerankResult 0 0.2%float;
                 mkRerankResult 1 0.75%float; mkRerankResult 5 0.625%float;
                 mkRerankResult 0 0.5%float; mkRerankResult 4 0.375%float;
                 mkRerankResult 2 0.25%float; mkRerankResult 1 0.21875%float]
                eq_refl) as [_ Hbody].
    destruct (Hbody
                [Hit.mk "compound" "Curcumin" "anti-inflammatory"
                   "https://example.org/curcumin";
                 Hit.mk "herb" "Ginger" "nausea" "https://example.org/ginger";
                 Hit.mk "compound" "Eugenol" "analgesic" "https://example.org/eugenol";
                 Hit.mk "herb" "Turmeric" "anti-inflammatory"
                   "https://example.org/turmeric";
                 Hit.mk "compound" "Gingerol" "antiemetic"
                   "https://example.org/gingerol"]) as (Hfive & Hlen & _).
    + vm_compute. reflexivity.
    + split; [exact Hfive | exact Hlen].
Defined.

Lemma search_never_not_found_witness :
  (∃ results, search Demo.rerank Demo.db "root for nausea" = Return results
              ∧ status (search Demo.rerank Demo.db "root for nausea") = 200)
  ∧ search Demo.rerank_nothing Demo.db "unicorn" = Return []
  ∧ search Demo.rerank_nothing Demo.empty_db "unicorn" = Return [].
Proof.
  split; [|split].
  - destruct (search_never_not_found Demo.rerank Demo.db "root for nausea")
      as (_ & Hok & _).
    apply (Hok [mkRerankResult 1 0.875%float; mkRerankResult 0 0.5%float;
                mkRerankResult 2 0.125%float]); [reflexivity|].
    apply (bool_decide_unpack _). vm_compute. exact I.
  - destruct (search_never_not_found Demo.rerank_nothing Demo.db "unicorn")
      as (_ & _ & Hempty & _).
    apply (Hempty []); reflexivity.
  - destruct (search_never_not_found Demo.rerank_nothing Demo.empty_db "unicorn")
      as (_ & _ & _ & Hnodata).
    apply (Hnodata eq_refl eq_refl []); [reflexivity | constructor].
Defined.

Lemma dangling_links_skipped_witness :
  build_compound_map [Demo.curcumin] [Link.mk 1 1; Link.mk 2 2; Link.mk 2 1]
  = build_compound_map [Demo.curcumin] [Link.mk 1 1; Link.mk 2 1]
  ∧ build_herb_map [Demo.turmeric] [Link.mk 2 1; Link.mk 1 1]
    = build_herb_map [Demo.turmeric] [Link.mk 1 1]
  ∧ (∃ body, get_herb Demo.ilike Demo.db_dangling "r" = Return body
             ∧ Forall2
                 (λ h record,
                    HerbRecord.phytochemicals record =
                    embed_compound <$>
                      omap (λ hp, compound_by_id Demo.db_dangling (Link.compound_id hp))
                           (links_of_herb Demo.db_dangling (Herb.herb_id h)))
                 [Demo.turmeric; Demo.ginger] body)
  ∧ (∃ body, get_phytochemical Demo.ilike Demo.db_dangling "cur" = Return body
             ∧ Forall2
                 (λ c record,
                    CompoundRecord.related_herbs record =
                    embed_herb <$>
                      omap (λ hp, herb_by_id Demo.db_dangling (Link.herb_id hp))
                           (links_of_compound Demo.db_dangling (Compound.compound_id c)))
                 [Demo.curcumin] body).
Proof.
  destruct (dangling_links_skipped Demo.ilike) as (Hc & Hh & Hherb & Hcompound).
  split; [|split; [|split]].
  - apply (Hc [Demo.curcumin] [Link.mk 1 1] (Link.mk 2 2) [Link.mk 2 1]).
    apply (bool_decide_unpack _). vm_compute. exact I.
  - apply (Hh [Demo.turmeric] [] (Link.mk 2 1) [Link.mk 1 1]).
    apply (bool_decide_unpack _). vm_compute. exact I.
  - apply (Hherb Demo.db_dangling "r"). vm_compute. discriminate.
  - apply (Hcompound Demo.db_dangling "cur"). vm_compute. discriminate.
Defined.

(** ** Further properties of the join helpers *)

Lemma filter_sublist_impl {A} (P Q : A → Prop) `{!∀ x, Decision (P x)}
    `{!∀ x, Decision (Q x)} (l : list A) :
  (∀ x, P x → Q x) → filter P l `sublist_of` filter Q l.
Proof.
  intros HPQ. induction l as [|x l IH]; [constructor|].
  rewrite !filter_cons. destruct (decide (P x)) as [HP|HP].
  - rewrite decide_True by auto. by apply sublist_skip.
  - destruct (decide (Q x)); [by apply sublist_cons | done].
Qed.

Lemma linked_ids_elem_of (column other : Link.t → Z) (ids : list Z)
    (links : list Link.t) (v : Z) :
  v ∈ other <$> select_in column ids links ↔
  ∃ hp, hp ∈ links ∧ column hp ∈ ids ∧ other hp = v.
Proof.
  rewrite list_elem_of_fmap. split.
  - intros (hp & -> & Hhp). apply elem_of_select_in in Hhp as [Hid Hin].
    by exists hp.
  - intros (hp & Hin & Hid & <-). exists hp. split; [done|].
    by apply elem_of_select_in.
Qed.

(** X1: the rows [get_related_compounds] returns are the rows of
    [phytochemicals] whose identifier some link row pairs with one of the
    given herb identifiers; [get_related_herbs] is the mirror image. *)
Theorem related_membership (db : Store.t) (ids : list Z) :
  (∀ c, c ∈ get_related_compounds db ids ↔
        c ∈ Store.phytochemicals db
        ∧ ∃ hp, hp ∈ Store.herb_phytochemical db
                ∧ Link.herb_id hp ∈ ids
                ∧ Link.compound_id hp = Compound.compound_id c)
  ∧ (∀ h, h ∈ get_related_herbs db ids ↔
          h ∈ Store.herbs db
          ∧ ∃ hp, hp ∈ Store.herb_phytochemical db
                  ∧ Link.compound_id hp ∈ ids
                  ∧ Link.herb_id hp = Herb.herb_id h).
Proof.
  split.
  - intros c. rewrite get_related_compounds_unfold, elem_of_select_in.
    rewrite linked_ids_elem_of. tauto.
  - intros h. rewrite get_related_herbs_unfold, elem_of_select_in.
    rewrite linked_ids_elem_of. tauto.
Qed.

(** X2: asking for more identifiers can only add rows: the answer for a list of
    identifiers is a sub-list, in table order, of the answer for any list
    that contains them. *)
Theorem related_monotone (db : Store.t) (ids ids' : list Z) :
  ids ⊆ ids' →
  get_related_compounds db ids `sublist_of` get_related_compounds db ids'
  ∧ get_related_herbs db ids `sublist_of` get_related_herbs db ids'.
Proof.
  intros Hsub. split.
  - rewrite !get_related_compounds_unfold. apply filter_sublist_impl.
    intros c. rewrite !linked_ids_elem_of.
    intros (hp & Hin & Hid & Hc). exists hp. auto.
  - rewrite !get_related_herbs_unfold. apply filter_sublist_impl.
    intros h. rewrite !linked_ids_elem_of.
    intros (hp & Hin & Hid & Hh). exists hp. auto.
Qed.

(** X3: the answer of the helpers follows the order of the entity table, not of
    the link table: two stores with the same entity tables and the same
    link rows, in any order and with any repetition, give the same list. *)
Theorem related_link_order_irrelevant (db db' : Store.t) (ids : list Z) :
  Store.herbs db = Store.herbs db' →
  Store.phytochemicals db = Store.phytochemicals db' →
  (∀ hp, hp ∈ Store.herb_phytochemical db ↔ hp ∈ Store.herb_phytochemical db') →
  get_related_compounds db ids = get_related_compounds db' ids
  ∧ get_related_herbs db ids = get_related_herbs db' ids.
Proof.
  intros Hherbs Hcompounds Hlinks. split.
  - rewrite !get_related_compounds_unfold, Hcompounds. apply select_in_ext.
    intros v. rewrite !linked_ids_elem_of.
    split; intros (hp & Hin & Hrest); exists hp; (split; [by apply Hlinks | done]).
  - rewrite !get_related_herbs_unfold, Hherbs. apply select_in_ext.
    intros v. rewrite !linked_ids_elem_of.
    split; intros (hp & Hin & Hrest); exists hp; (split; [by apply Hlinks | done]).
Qed.

(** ** Further properties of the two lookups *)

Lemma omap_nil_iff {A B} (f : A → option B) (l : list A) :
  omap f l = [] ↔ Forall (λ x, f x = None) l.
Proof.
  induction l as [|x l IH]; simpl.
  - split; [constructor | done].
  - rewrite Forall_cons. destruct (f x) as [y|]; simpl.
    + split; [done | by intros [? _]].
    + fold (omap f l). rewrite IH. split; [done | by intros [_ ?]].
Qed.

Lemma next_where_id_None {A} (key : A → Z) (l : list A) (id : Z) :
  next_where (λ x, bool_decide (key x = id)) l = None ↔ id ∉ key <$> l.
Proof.
  rewrite next_where_None, list_elem_of_fmap, Forall_forall. split.
  - intros Hall (x & -> & Hin). specialize (Hall x Hin).
    by rewrite bool_decide_eq_true_2 in Hall.
  - intros Hnot x Hin. apply bool_decide_eq_false_2. intros <-.
    apply Hnot. by exists x.
Qed.

Section MoreLookups.

Variable ilike : string → string → bool.

(** X4: the success path of the compound lookup: when at least one compound
    matches and every link row names rows of both tables,
    [get_phytochemical] returns one record per matching compound, in store
    order, with the compound's own fields; [related_herbs] has, for each
    link row of that compound in store order, an entry carrying the name,
    scientific name, uses and source URL of a herb row with the linked
    identifier, and with unique herb identifiers these herbs are exactly
    the ones some link row relates to the compound. *)
Theorem get_phytochemical_found (db : Store.t) (name : string) :
  filter (λ c, ilike ("%" +:+ name +:+ "%") (Compound.compound_name c) = true)
    (Store.phytochemicals db) ≠ [] →
  referential_integrity db →
  ∃ body,
    get_phytochemical ilike db name = Return body
    ∧ status (get_phytochemical ilike db name) = 200
    ∧ Forall2
        (λ c record,
           CompoundRecord.compound_name record = Compound.compound_name c
           ∧ CompoundRecord.function record = Compound.function c
           ∧ CompoundRecord.chemical_structure record = Compound.chemical_structure c
           ∧ CompoundRecord.compound_type record = Compound.compound_type c
           ∧ CompoundRecord.source_url record = Compound.source_url c
           ∧ ∃ herbs : list Herb.t,
               Forall2 (λ h entry,
                          EmbeddedHerb.herb_name entry = Herb.herb_name h
                          ∧ EmbeddedHerb.scientific_name entry = Herb.scientific_name h
                          ∧ EmbeddedHerb.uses entry = Herb.uses h
                          ∧ EmbeddedHerb.source_url entry = Herb.source_url h)
                       herbs (CompoundRecord.related_herbs record)
               ∧ Forall2 (λ hp h, h ∈ Store.herbs db
                                  ∧ Herb.herb_id h = Link.herb_id hp)
                         (links_of_compound db (Compound.compound_id c)) herbs
               ∧ (NoDup (Herb.herb_id <$> Store.herbs db) →
                  ∀ h, h ∈ herbs ↔
                       h ∈ Store.herbs db
                       ∧ ∃ hp, hp ∈ Store.herb_phytochemical db
                               ∧ Link.compound_id hp = Compound.compound_id c
                               ∧ Link.herb_id hp = Herb.herb_id h))
        (filter (λ c, ilike ("%" +:+ name +:+ "%") (Compound.compound_name c) = true)
           (Store.phytochemicals db))
        body.
Proof.
  change (filter (λ c, ilike ("%" +:+ name +:+ "%") (Compound.compound_name c) = true)
            (Store.phytochemicals db))
    with (select_ilike ilike Compound.compound_name ("%" +:+ name +:+ "%")
            (Store.phytochemicals db)).
  intros Hmatch Hintegrity. rewrite get_phytochemical_body.
  destruct (select_ilike _ _ _ _) as [|c0 compounds]; [done|].
  eexists. split; [done|]. split; [done|].
  apply Forall2_fmap_r, Forall_Forall2_diag, Forall_forall.
  intros c _. simpl. do 5 (split; [done|]).
  exists (omap (λ hp, herb_by_id db (Link.herb_id hp))
            (links_of_compound db (Compound.compound_id c))).
  split.
  { apply Forall2_fmap_r, Forall_Forall2_diag, Forall_forall. by intros h _. }
  split.
  - eapply Forall2_impl.
    + apply omap_total. apply Forall_forall. intros hp Hhp.
      unfold links_of_compound in Hhp.
      apply list_elem_of_filter in Hhp as [_ Hin].
      unfold referential_integrity in Hintegrity.
      rewrite Forall_forall in Hintegrity.
      destruct (Hintegrity hp Hin) as [Hh _].
      apply list_elem_of_fmap in Hh as (h & Hid & Hh).
      eapply (next_where_is_Some _ _ h); [done|]. by apply bool_decide_eq_true_2.
    + intros hp h Hfound. simpl in Hfound.
      apply next_where_Some in Hfound as [Hin Hid].
      by apply bool_decide_eq_true_1 in Hid.
  - intros Hkey h. rewrite list_elem_of_omap. split.
    + intros (hp & Hhp & Hfound).
      apply next_where_Some in Hfound as [Hin Hid].
      apply bool_decide_eq_true_1 in Hid.
      unfold links_of_compound in Hhp.
      apply list_elem_of_filter in Hhp as [Hc Hhp].
      split; [done|]. by exists hp.
    + intros (Hin & hp & Hhp & Hc & Hh).
      exists hp. split.
      * unfold links_of_compound. by apply list_elem_of_filter.
      * unfold herb_by_id. rewrite Hh. by apply next_where_key.
Qed.

(** X5: a record's embedded list is empty exactly when every link row of the
    herb (compound) names an identifier absent from the other table; in
    particular a matching herb or compound that no link row mentions is
    returned with an empty list, not left out. *)
Theorem embedded_list_empty_iff (db : Store.t) (name : string) :
  (select_ilike ilike Herb.herb_name ("%" +:+ name +:+ "%") (Store.herbs db) ≠ [] →
   ∃ body,
     get_herb ilike db name = Return body
     ∧ Forall2
         (λ h record,
            HerbRecord.phytochemicals record = [] ↔
            Forall (λ hp, Link.compound_id hp
                          ∉ Compound.compound_id <$> Store.phytochemicals db)
                   (links_of_herb db (Herb.herb_id h)))
         (select_ilike ilike Herb.herb_name ("%" +:+ name +:+ "%") (Store.herbs db))
         body)
  ∧
  (select_ilike ilike Compound.compound_name ("%" +:+ name +:+ "%")
     (Store.phytochemicals db) ≠ [] →
   ∃ body,
     get_phytochemical ilike db name = Return body
     ∧ Forall2
         (λ c record,
            CompoundRecord.related_herbs record = [] ↔
            Forall (λ hp, Link.herb_id hp ∉ Herb.herb_id <$> Store.herbs db)
                   (links_of_compound db (Compound.compound_id c)))
         (select_ilike ilike Compound.compound_name ("%" +:+ name +:+ "%")
            (Store.phytochemicals db))
         body).
Proof.
  split; intros Hmatch.
  - rewrite get_herb_body.
    destruct (select_ilike _ _ _ _) as [|h0 herbs]; [done|].
    eexists. split; [done|].
    apply Forall2_fmap_r, Forall_Forall2_diag, Forall_forall.
    intros h _. simpl. split.
    + intros Hnil. apply fmap_nil_inv, omap_nil_iff in Hnil.
      eapply Forall_impl; [exact Hnil|].
      intros hp Hnone. by apply next_where_id_None in Hnone.
    + intros Hdangling.
      assert (omap (λ hp, compound_by_id db (Link.compound_id hp))
                (links_of_herb db (Herb.herb_id h)) = []) as ->; [|done].
      apply omap_nil_iff. eapply Forall_impl; [exact Hdangling|].
      intros hp Hout. by apply next_where_id_None.
  - rewrite get_phytochemical_body.
    destruct (select_ilike _ _ _ _) as [|c0 compounds]; [done|].
    eexists. split; [done|].
    apply Forall2_fmap_r, Forall_Forall2_diag, Forall_forall.
    intros c _. simpl. split.
    + intros Hnil. apply fmap_nil_inv, omap_nil_iff in Hnil.
      eapply Forall_impl; [exact Hnil|].
      intros hp Hnone. by apply next_where_id_None in Hnone.
    + intros Hdangling.
      assert (omap (λ hp, herb_by_id db (Link.herb_id hp))
                (links_of_compound db (Compound.compound_id c)) = []) as ->; [|done].
      apply omap_nil_iff. eapply Forall_impl; [exact Hdangling|].
      intros hp Hout. by apply next_where_id_None.
Qed.

(** X6: link rows of herbs (compounds) that do not match the requested name
    have no influence on the response: removing such a row from the link
    table leaves the answer of the lookup unchanged. *)
Theorem lookup_ignores_other_links (herbs : list Herb.t)
    (compounds : list Compound.t) (before after : list Link.t) (hp : Link.t)
    (name : string) :
  (Link.herb_id hp ∉ Herb.herb_id <$>
     select_ilike ilike Herb.herb_name ("%" +:+ name +:+ "%") herbs →
   get_herb ilike (Store.mk herbs compounds (before ++ hp :: after)) name
   = get_herb ilike (Store.mk herbs compounds (before ++ after)) name)
  ∧
  (Link.compound_id hp ∉ Compound.compound_id <$>
     select_ilike ilike Compound.compound_name ("%" +:+ name +:+ "%") compounds →
   get_phytochemical ilike (Store.mk herbs compounds (before ++ hp :: after)) name
   = get_phytochemical ilike (Store.mk herbs compounds (before ++ after)) name).
Proof.
  split; intros Hother.
  - rewrite !get_herb_body. cbn [Store.herbs].
    destruct (select_ilike _ _ _ _) as [|h0 matching] eqn:Hmatch; [done|].
    f_equal. apply list_fmap_ext. intros i h Hi. do 2 f_equal.
    unfold links_of_herb. simpl. rewrite !filter_app.
    rewrite filter_cons_False; [done|]. intros Hsame. apply Hother.
    rewrite Hsame. apply list_elem_of_fmap_2. by eapply list_elem_of_lookup_2.
  - rewrite !get_phytochemical_body. cbn [Store.phytochemicals].
    destruct (select_ilike _ _ _ _) as [|c0 matching] eqn:Hmatch; [done|].
    f_equal. apply list_fmap_ext. intros i c Hi. do 2 f_equal.
    unfold links_of_compound. simpl. rewrite !filter_app.
    rewrite filter_cons_False; [done|]. intros Hsame. apply Hother.
    rewrite Hsame. apply list_elem_of_fmap_2. by eapply list_elem_of_lookup_2.
Qed.

End MoreLookups.

(** ** Further properties of the search handler *)

Lemma getitem_None {A} (l : list A) (i : Z) :
  getitem l i = None ↔ ¬ (- Z.of_nat (length l) ≤ i < Z.of_nat (length l)).
Proof.
  unfold getitem. destruct (decide (0 ≤ i)).
  - rewrite lookup_ge_None. lia.
  - destruct (decide (- Z.of_nat (length l) ≤ i)).
    + rewrite lookup_ge_None. lia.
    + split; [lia | done].
Qed.

Lemma getitem_negative {A} (l : list A) (i : Z) :
  - Z.of_nat (length l) ≤ i < 0 → getitem l i = getitem l (i + Z.of_nat (length l)).
Proof.
  intros [Hlo Hhi]. unfold getitem.
  rewrite decide_False, decide_True by lia.
  rewrite (decide_True (P := 0 ≤ i + Z.of_nat (length l))) by lia.
  f_equal. lia.
Qed.

Lemma meta_of_eq (db : Store.t) :
  meta_of db = (herb_meta <$> Store.herbs db) ++ (compound_meta <$> Store.phytochemicals db).
Proof. unfold meta_of. by rewrite prepare_documents_eq. Qed.

Lemma meta_of_length (db : Store.t) :
  length (meta_of db) = length (documents_of db).
Proof. unfold meta_of, documents_of. by rewrite prepare_documents_length. Qed.

(** X7: which record [meta[result.index]] is, by the position the index names:
    the herbs fill the first positions in table order and the compounds the
    positions after them; a negative index down to minus the length is read
    from the end of the list; any other index is out of range. *)
Theorem meta_by_position (db : Store.t) (i : Z) :
  (0 ≤ i < Z.of_nat (length (Store.herbs db)) →
   getitem (meta_of db) i = herb_meta <$> Store.herbs db !! Z.to_nat i)
  ∧ (Z.of_nat (length (Store.herbs db)) ≤ i
     < Z.of_nat (length (Store.herbs db) + length (Store.phytochemicals db)) →
     getitem (meta_of db) i =
     compound_meta <$> Store.phytochemicals db
                         !! Z.to_nat (i - Z.of_nat (length (Store.herbs db))))
  ∧ (- Z.of_nat (length (Store.herbs db) + length (Store.phytochemicals db)) ≤ i < 0 →
     getitem (meta_of db) i =
     getitem (meta_of db)
       (i + Z.of_nat (length (Store.herbs db) + length (Store.phytochemicals db))))
  ∧ (¬ (- Z.of_nat (length (Store.herbs db) + length (Store.phytochemicals db)) ≤ i
        < Z.of_nat (length (Store.herbs db) + length (Store.phytochemicals db))) →
     getitem (meta_of db) i = None).
Proof.
  assert (Hlen : length (meta_of db)
                 = (length (Store.herbs db) + length (Store.phytochemicals db))%nat).
  { by rewrite meta_of_eq, length_app, !length_fmap. }
  split; [|split; [|split]].
  - intros [Hlo Hhi]. rewrite getitem_position by done.
    rewrite meta_of_eq, lookup_app_l by (rewrite length_fmap; lia).
    apply list_lookup_fmap.
  - intros [Hlo Hhi]. rewrite getitem_position by lia.
    rewrite meta_of_eq, lookup_app_r by (rewrite length_fmap; lia).
    rewrite length_fmap, list_lookup_fmap. do 2 f_equal. lia.
  - intros Hneg. rewrite <- Hlen. apply getitem_negative. by rewrite Hlen.
  - intros Hout. apply getitem_None. by rewrite Hlen.
Qed.

Section MoreSearch.

Variable co_rerank : string → list string → Z → string → RerankOutcome.

(** X8: [search] lets an [IndexError] escape exactly when the rerank call
    returns a result whose relevance score is strictly greater than 0.2
    and whose index is outside the submitted list; the index of a result
    scoring 0.2 or less is never looked up, so it cannot cause the error. *)
Theorem search_index_error_iff (db : Store.t) (q : string) :
  search co_rerank db q = Unhandled IndexError ↔
  ∃ rerank_results,
    co_rerank q (documents_of db) 5 "rerank-english-v2.0" = Reranked rerank_results
    ∧ Exists (λ result,
                PrimFloat.ltb 0.2 (relevance_score result) = true
                ∧ ¬ (- Z.of_nat (length (documents_of db)) ≤ index result
                     < Z.of_nat (length (documents_of db))))
             rerank_results.
Proof.
  change (λ result : RerankResult,
            PrimFloat.ltb 0.2 (relevance_score result) = true
            ∧ ¬ (- Z.of_nat (length (documents_of db)) ≤ index result
                 < Z.of_nat (length (documents_of db))))
    with (λ result : RerankResult,
            above_threshold result = true
            ∧ ¬ (- Z.of_nat (length (documents_of db)) ≤ index result
                 < Z.of_nat (length (documents_of db)))).
  split.
  - intros Herr.
    destruct (co_rerank q (documents_of db) 5 "rerank-english-v2.0")
      as [rs|message] eqn:Hcall.
    + exists rs. split; [done|].
      rewrite (search_reranked _ _ _ _ Hcall) in Herr.
      destruct (mapM _ _) eqn:Hlookup; [done|].
      apply mapM_None in Hlookup. apply Exists_exists in Hlookup as (r & Hin & Hnone).
      apply Exists_exists. exists r.
      unfold qualifying in Hin. apply list_elem_of_filter in Hin as [Habove Hin].
      split; [done|]. split; [done|].
      apply getitem_None in Hnone. by rewrite meta_of_length in Hnone.
    + unfold search, documents_of in *.
      destruct (prepare_documents _ _). simpl in Hcall. by rewrite Hcall in Herr.
  - intros (rs & Hcall & Hbad). rewrite (search_reranked _ _ _ _ Hcall).
    apply Exists_exists in Hbad as (r & Hin & Habove & Hout).
    rewrite (mapM_None_2 (λ result, getitem (meta_of db) (index result))); [done|].
    apply Exists_exists. exists r. split.
    + unfold qualifying. by apply list_elem_of_filter.
    + apply getitem_None. by rewrite meta_of_length.
Qed.

End MoreSearch.

(** ** The further properties at the concrete store *)

Lemma related_membership_witness :
  Demo.eugenol ∈ get_related_compounds Demo.db [3]
  ∧ Demo.ginger ∈ get_related_herbs Demo.db [1].
Proof.
  destruct (related_membership Demo.db [3]) as [Hcompounds _].
  destruct (related_membership Demo.db [1]) as [_ Hherbs].
  split.
  - apply Hcompounds. split.
    + unfold Demo.db. simpl. rewrite !elem_of_cons. tauto.
    + exists (Link.mk 3 3). unfold Demo.db. simpl. rewrite !elem_of_cons. tauto.
  - apply Hherbs. split.
    + unfold Demo.db. simpl. rewrite !elem_of_cons. tauto.
    + exists (Link.mk 2 1). unfold Demo.db. simpl. rewrite !elem_of_cons. tauto.
Defined.

Lemma related_monotone_witness :
  get_related_compounds Demo.db [1] `sublist_of` get_related_compounds Demo.db [2; 1]
  ∧ get_related_herbs Demo.db [1] `sublist_of` get_related_herbs Demo.db [2; 1].
Proof.
  apply (related_monotone Demo.db [1] [2; 1]).
  apply (bool_decide_unpack _). vm_compute. exact I.
Defined.

Lemma related_link_order_irrelevant_witness :
  get_related_compounds Demo.db [2] =
  get_related_compounds
    (Store.mk [Demo.turmeric; Demo.ginger; Demo.tulsi]
       [Demo.curcumin; Demo.gingerol; Demo.eugenol]
       [Link.mk 2 3; Link.mk 3 3; Link.mk 2 1; Link.mk 2 2; Link.mk 1 1; Link.mk 2 1])
    [2]
  ∧ get_related_herbs Demo.db [2] =
    get_related_herbs
      (Store.mk [Demo.turmeric; Demo.ginger; Demo.tulsi]
         [Demo.curcumin; Demo.gingerol; Demo.eugenol]
         [Link.mk 2 3; Link.mk 3 3; Link.mk 2 1; Link.mk 2 2; Link.mk 1 1; Link.mk 2 1])
      [2].
Proof.
  apply related_link_order_irrelevant; [reflexivity | reflexivity |].
  intros hp. unfold Demo.db. simpl. rewrite !elem_of_cons, !elem_of_nil. tauto.
Defined.

Lemma get_phytochemical_found_witness :
  ∃ body,
    get_phytochemical Demo.ilike Demo.db "ol" = Return body
    ∧ status (get_phytochemical Demo.ilike Demo.db "ol") = 200
    ∧ Forall2
        (λ c record,
           CompoundRecord.compound_name record = Compound.compound_name c
           ∧ CompoundRecord.function record = Compound.function c
           ∧ CompoundRecord.chemical_structure record = Compound.chemical_structure c
           ∧ CompoundRecord.compound_type record = Compound.compound_type c
           ∧ CompoundRecord.source_url record = Compound.source_url c
           ∧ ∃ herbs : list Herb.t,
               Forall2 (λ h entry,
                          EmbeddedHerb.herb_name entry = Herb.herb_name h
                          ∧ EmbeddedHerb.scientific_name entry = Herb.scientific_name h
                          ∧ EmbeddedHerb.uses entry = Herb.uses h
                          ∧ EmbeddedHerb.source_url entry = Herb.source_url h)
                       herbs (CompoundRecord.related_herbs record)
               ∧ Forall2 (λ hp h, h ∈ Store.herbs Demo.db
                                  ∧ Herb.herb_id h = Link.herb_id hp)
                         (links_of_compound Demo.db (Compound.compound_id c)) herbs
               ∧ (NoDup (Herb.herb_id <$> Store.herbs Demo.db) →
                  ∀ h, h ∈ herbs ↔
                       h ∈ Store.herbs Demo.db
                       ∧ ∃ hp, hp ∈ Store.herb_phytochemical Demo.db
                               ∧ Link.compound_id hp = Compound.compound_id c
                               ∧ Link.herb_id hp = Herb.herb_id h))
        (filter (λ c, Demo.ilike ("%" +:+ "ol" +:+ "%") (Compound.compound_name c) = true)
           (Store.phytochemicals Demo.db))
        body.
Proof.
  apply (get_phytochemical_found Demo.ilike Demo.db "ol").
  - vm_compute. discriminate.
  - apply (bool_decide_unpack _). vm_compute. exact I.
Defined.

Example get_phytochemical_ol :
  get_phytochemical Demo.ilike Demo.db "ol" =
  Return [CompoundRecord.mk "Gingerol" "antiemetic" "C17H26O4" "phenol"
            "https://example.org/gingerol"
            [EmbeddedHerb.mk "Ginger" "Zingiber officinale" "nausea"
               "https://example.org/ginger"];
          CompoundRecord.mk "Eugenol" "analgesic" "C10H12O2" "phenylpropanoid"
            "https://example.org/eugenol"
            [EmbeddedHerb.mk "Tulsi" "Ocimum tenuiflorum" "stress"
               "https://example.org/tulsi";
             EmbeddedHerb.mk "Ginger" "Zingiber officinale" "nausea"
               "https://example.org/ginger"]].
Proof. vm_compute. reflexivity. Qed.

Lemma embedded_list_empty_iff_witness :
  (∃ body,
     get_herb Demo.ilike
       (Store.mk [Demo.turmeric; Demo.ginger] [Demo.curcumin] [Link.mk 1 1; Link.mk 2 2])
       "ginger" = Return body
     ∧ Forall2
         (λ h record,
            HerbRecord.phytochemicals record = [] ↔
            Forall (λ hp, Link.compound_id hp ∉ Compound.compound_id <$> [Demo.curcumin])
                   (links_of_herb
                      (Store.mk [Demo.turmeric; Demo.ginger] [Demo.curcumin]
                         [Link.mk 1 1; Link.mk 2 2])
                      (Herb.herb_id h)))
         [Demo.ginger] body)
  ∧ (∃ body,
       get_phytochemical Demo.ilike
         (Store.mk [Demo.turmeric] [Demo.curcumin; Demo.gingerol] [Link.mk 1 1])
         "gingerol" = Return body
       ∧ Forall2
           (λ c record,
              CompoundRecord.related_herbs record = [] ↔
              Forall (λ hp, Link.herb_id hp ∉ Herb.herb_id <$> [Demo.turmeric])
                     (links_of_compound
                        (Store.mk [Demo.turmeric] [Demo.curcumin; Demo.gingerol]
                           [Link.mk 1 1])
                        (Compound.compound_id c)))
           [Demo.gingerol] body).
Proof.
  split.
  - apply (embedded_list_empty_iff Demo.ilike
             (Store.mk [Demo.turmeric; Demo.ginger] [Demo.curcumin]
                [Link.mk 1 1; Link.mk 2 2]) "ginger").
    vm_compute. discriminate.
  - apply (embedded_list_empty_iff Demo.ilike
             (Store.mk [Demo.turmeric] [Demo.curcumin; Demo.gingerol] [Link.mk 1 1])
             "gingerol").
    vm_compute. discriminate.
Defined.

Example get_herb_all_dangling :
  get_herb Demo.ilike
    (Store.mk [Demo.turmeric; Demo.ginger] [Demo.curcumin] [Link.mk 1 1; Link.mk 2 2])
    "ginger"
  = Return [HerbRecord.mk "Ginger" "Zingiber officinale" "nausea" "China"
              "https://example.org/ginger" []].
Proof. vm_compute. reflexivity. Qed.

Lemma lookup_ignores_other_links_witness :
  get_herb Demo.ilike
    (Store.mk [Demo.turmeric; Demo.ginger] [Demo.curcumin; Demo.gingerol]
       ([Link.mk 1 1] ++ Link.mk 2 2 :: [Link.mk 2 1])) "turmeric"
  = get_herb Demo.ilike
      (Store.mk [Demo.turmeric; Demo.ginger] [Demo.curcumin; Demo.gingerol]
         ([Link.mk 1 1] ++ [Link.mk 2 1])) "turmeric"
  ∧ get_phytochemical Demo.ilike
      (Store.mk [Demo.turmeric; Demo.ginger] [Demo.curcumin; Demo.gingerol]
         ([Link.mk 1 1] ++ Link.mk 2 2 :: [Link.mk 2 1])) "curcumin"
    = get_phytochemical Demo.ilike
        (Store.mk [Demo.turmeric; Demo.ginger] [Demo.curcumin; Demo.gingerol]
           ([Link.mk 1 1] ++ [Link.mk 2 1])) "curcumin".
Proof.
  split.
  - apply (lookup_ignores_other_links Demo.ilike).
    apply (bool_decide_unpack _). vm_compute. exact I.
  - apply (lookup_ignores_other_links Demo.ilike).
    apply (bool_decide_unpack _). vm_compute. exact I.
Defined.

Lemma meta_by_position_witness :
  getitem (meta_of Demo.db) 1 = herb_meta <$> Store.herbs Demo.db !! 1%nat
  ∧ getitem (meta_of Demo.db) 4 =
    compound_meta <$> Store.phytochemicals Demo.db
                        !! Z.to_nat (4 - Z.of_nat (length (Store.herbs Demo.db)))
  ∧ getitem (meta_of Demo.db) (-2) =
    getitem (meta_of Demo.db)
      (-2 + Z.of_nat (length (Store.herbs Demo.db)
                      + length (Store.phytochemicals Demo.db)))
  ∧ getitem (meta_of Demo.db) 6 = None.
Proof.
  split; [|split; [|split]].
  - apply (meta_by_position Demo.db 1). simpl. lia.
  - apply (meta_by_position Demo.db 4). simpl. lia.
  - apply (meta_by_position Demo.db (-2)). simpl. lia.
  - apply (meta_by_position Demo.db 6). simpl. lia.
Defined.

Lemma search_index_error_iff_witness :
  search (λ _ _ _ _, Reranked [mkRerankResult 0 0.125%float; mkRerankResult 6 0.5%float])
    Demo.db "q" = Unhandled IndexError
  ∧ ¬ Exists (λ result,
                PrimFloat.ltb 0.2 (relevance_score result) = true
                ∧ ¬ (- Z.of_nat (length (documents_of Demo.db)) ≤ index result
                     < Z.of_nat (length (documents_of Demo.db))))
             [mkRerankResult 9 0.2%float; mkRerankResult (-7) 0.125%float;
              mkRerankResult 5 0.5%float].
Proof.
  split.
  - apply search_index_error_iff.
    exists [mkRerankResult 0 0.125%float; mkRerankResult 6 0.5%float].
    split; [reflexivity|].
    apply (bool_decide_unpack _). vm_compute. exact I.
  - intros Hbad.
    assert (Herr : search (λ _ _ _ _,
                             Reranked [mkRerankResult 9 0.2%float;
                                       mkRerankResult (-7) 0.125%float;
                                       mkRerankResult 5 0.5%float])
                     Demo.db "q" = Unhandled IndexError).
    { apply search_index_error_iff. eexists. split; [reflexivity | exact Hbad]. }
    vm_compute in Herr. discriminate Herr.
Defined.
